(** * Floor-plan editor: interaction controller and observer channel

    A shallow embedding of [src/utils/callback.ts] and of the
    [FloorplanController] class.  JavaScript numbers are modelled as
    rationals ([Q]): every arithmetic step of the controller is exact here,
    where the source computes in IEEE doubles and rounds.  A statement that
    repeats the expressions of the code as they are written does not depend
    on this; a statement that cancels one arithmetic step against another
    (the round trip of [convertX]) is a statement about exact arithmetic,
    and says so.
    Objects (corners, walls, items, listener functions) are modelled by
    their identity, a natural number; [===] is equality of identities. *)

From Stdlib Require Import List Bool Arith PeanoNat Lia QArith Qabs Qfield.
Import ListNotations.

Set Implicit Arguments.

(** ** Observer channel ([src/utils/callback.ts]) *)

Module Callback.

(** A listener is a function object; [f !== fn] compares identities. *)
Definition Listener := nat.

(** [private callbacks: Array<(event?: T) => void> = []] *)
Record t := { callbacks : list Listener }.

Definition empty : t := {| callbacks := [] |}.

(** [add(fn) { this.callbacks.push(fn); }] *)
Definition add (fn : Listener) (c : t) : t :=
  {| callbacks := callbacks c ++ [fn] |}.

(** [remove(fn) { this.callbacks = this.callbacks.filter((f) => f !== fn); }] *)
Definition remove (fn : Listener) (c : t) : t :=
  {| callbacks := filter (fun f => negb (f =? fn)) (callbacks c) |}.

(** [fire(event) { this.callbacks.forEach((cb) => cb(event)); }]
    The result is the sequence of listener invocations performed by the
    call, in the order they happen, each with the payload it receives. *)
Definition fire (T : Type) (event : T) (c : t) : list (Listener * T) :=
  map (fun cb => (cb, event)) (callbacks c).

(** The channel obtained by registering [fns] one after the other. *)
Definition registered (fns : list Listener) : t :=
  fold_left (fun c fn => add fn c) fns empty.

(** How many times [fn] is invoked in a sequence of invocations. *)
Definition invocations (T : Type) (fn : Listener) (calls : list (Listener * T)) : nat :=
  length (filter (fun call => fst call =? fn) calls).

(** [useCallback(callback, fn)]: the effect, run once when the component
    mounts, registers [fn]; the cleanup it returns, run when the component
    unmounts, removes it.  The result is the channel after the mount,
    paired with the cleanup. *)
Definition useCallback (callback : t) (fn : Listener) : t * (t -> t) :=
  (add fn callback, fun callback' => remove fn callback').

End Callback.

(** ** Data of the interaction controller *)

(** [FloorplanMode] (the enum's declaration is not part of the sources at
    hand; the three values are the ones the controller branches on). *)
Inductive FloorplanMode := MOVE | DRAW | DELETE.

Definition FloorplanMode_eqb (a b : FloorplanMode) : bool :=
  match a, b with
  | MOVE, MOVE | DRAW, DRAW | DELETE, DELETE => true
  | _, _ => false
  end.

(** Entities are objects of the floorplan model, compared by identity. *)
Definition Corner := nat.
Definition Wall := nat.
Definition Item := nat.

(** The value read from the [activeItem] getter: an item, [null], or
    [undefined] (an array read past the end).  [!==] tells them apart. *)
Inductive Ref := Obj (item : Item) | Null | Undefined.

(** [item !== activeItem], negated: strict equality of a hit-test result
    ([Item | null]) with a value of the getter. *)
Definition strictEq (item : option Item) (r : Ref) : bool :=
  match item, r with
  | Some i, Obj a => i =? a
  | None, Null => true
  | _, _ => false
  end.

(** [!!r] *)
Definition truthy (r : Ref) : bool :=
  match r with Obj _ => true | _ => false end.

Definition isSome (A : Type) (o : option A) : bool :=
  match o with Some _ => true | None => false end.

Definition option_eqb (a b : option nat) : bool :=
  match a, b with
  | Some x, Some y => x =? y
  | None, None => true
  | _, _ => false
  end.

(** [Array.prototype.indexOf], with [None] for [-1]. *)
Fixpoint indexOf (x : nat) (l : list nat) : option nat :=
  match l with
  | [] => None
  | y :: l' => if y =? x then Some 0%nat
               else match indexOf x l' with
                    | Some n => Some (S n)
                    | None => None
                    end
  end.

(** [a < b] on numbers. *)
Definition Qltb (a b : Q) : bool :=
  if Qlt_le_dec a b then true else false.

(** [canvasElement.getBoundingClientRect()] *)
Record DOMRect := { left : Q; top : Q; width : Q; height : Q }.

Record MouseEvent := { clientX : Q; clientY : Q }.

(** Payload of the model-changed channel. *)
Module ModelChange.
Record t (FloorplanDto : Type) :=
  { floorplane : FloorplanDto; x : Q; y : Q }.
End ModelChange.

(** What the controller does to the outside: redraw and resize requests to
    the view, and invocations of the listeners of its two channels. *)
Inductive Effect (FloorplanDto : Type) :=
| ViewDraw
| ViewHandleWindowResize
| ModeListener (fn : Callback.Listener) (m : FloorplanMode)
| ModelListener (fn : Callback.Listener) (ev : ModelChange.t FloorplanDto).

Arguments ViewDraw {FloorplanDto}.
Arguments ViewHandleWindowResize {FloorplanDto}.
Arguments ModeListener {FloorplanDto} fn m.
Arguments ModelListener {FloorplanDto} fn ev.

(** A timer of the event loop: its handle and the milliseconds left. *)
Record Timer := { tid : nat; remaining : nat }.

(** ** Constants *)

(** how much will we move a corner to make a wall axis aligned (cm) *)
Definition snapTolerance : Q := 25.

Definition cmPerFoot : Q := 3048 # 100.
Definition pixelsPerFoot : Q := 15.
Definition cmPerPixel : Q := cmPerFoot * (1 / pixelsPerFoot).
Definition pixelsPerCm : Q := 1 / cmPerPixel.

(** ** The collaborators

    [FloorplanModel], [Corner], [Wall], [Item] and [FloorplanDto] are
    imported by the controller; their methods are the operations of this
    interface.  A method that mutates takes the model and returns the new
    one. *)
Class FloorplanAPI (FloorplanModel FloorplanDto : Type) := {
  getItems : FloorplanModel -> list Item;
  getWalls : FloorplanModel -> list Wall;
  getCorners : FloorplanModel -> list Corner;
  getSelectedItem : FloorplanModel -> option Item;
  setSelectedItem : option Item -> bool -> FloorplanModel -> FloorplanModel;
  overlappedItem : FloorplanModel -> Q -> Q -> option Item;
  overlappedCorner : FloorplanModel -> Q -> Q -> option Corner;
  overlappedWall : FloorplanModel -> Q -> Q -> option Wall;
  newCorner : Q -> Q -> FloorplanModel -> Corner * FloorplanModel;
  newWall : Corner -> Corner -> FloorplanModel -> FloorplanModel;
  Floorplan_getCenter : FloorplanModel -> Q * Q;
  exportFloorplan : FloorplanModel -> FloorplanDto;
  Corner_x : FloorplanModel -> Corner -> Q;
  Corner_y : FloorplanModel -> Corner -> Q;
  Corner_removeAll : Corner -> FloorplanModel -> FloorplanModel;
  Corner_move : Corner -> Q -> Q -> FloorplanModel -> FloorplanModel;
  Corner_snapToAxis : Corner -> Q -> FloorplanModel -> FloorplanModel;
  Corner_mergeWithIntersected : Corner -> FloorplanModel -> bool * FloorplanModel;
  Wall_getStart : FloorplanModel -> Wall -> Corner;
  Wall_getEnd : FloorplanModel -> Wall -> Corner;
  Wall_remove : Wall -> FloorplanModel -> FloorplanModel;
  Wall_relativeMove : Wall -> Q -> Q -> FloorplanModel -> FloorplanModel;
  Wall_snapToAxis : Wall -> Q -> FloorplanModel -> FloorplanModel;
  Item_remove : Item -> FloorplanModel -> FloorplanModel;
  Item_startActive : Item -> FloorplanModel -> FloorplanModel;
  Item_endActive : Item -> FloorplanModel -> FloorplanModel;
  Item_mousedown : Item -> Q -> Q -> FloorplanModel -> FloorplanModel;
  Item_mousemove : Item -> Q -> Q -> Q -> Q -> FloorplanModel -> bool * FloorplanModel;
  Item_mouseup : Item -> Q -> Q -> FloorplanModel -> bool * FloorplanModel;
  Item_relativeMove : Item -> Q -> Q -> FloorplanModel -> FloorplanModel
}.

(** ** The controller *)

Section Controller.

Context {FloorplanModel FloorplanDto : Type}.
Context {api : FloorplanAPI FloorplanModel FloorplanDto}.

(** The quiet period of [debounce(() => ...)]: the call site passes no
    interval, the library's default applies. *)
Variable wait : nat.

(** The fields of [FloorplanController], the timers of the event loop it
    has armed ([timers], [nextTimer]) and the effects it has had on the
    view and on its listeners, oldest first. *)
Record Controller := {
  floorplan : FloorplanModel;
  canvasElement : DOMRect;
  mode : FloorplanMode;
  activeWall : option Wall;
  activeCorner : option Corner;
  _activeItemIndex : option nat;
  onModeChange : Callback.t;
  onModelChange : Callback.t;
  emitChanges_timeout : option nat;
  originX : Q;
  originY : Q;
  targetX : Q;
  targetY : Q;
  lastNode : option Corner;
  mouseDown : bool;
  mouseMoved : bool;
  mouseX : Q;
  mouseY : Q;
  lastX : Q;
  lastY : Q;
  lastRawX : Q;
  lastRawY : Q;
  timers : list Timer;
  nextTimer : nat;
  effects : list (Effect FloorplanDto)
}.

(** Assignment to one field. *)
Definition set_floorplan v (s : Controller) : Controller :=
  Build_Controller v (canvasElement s) (mode s) (activeWall s)
    (activeCorner s) (_activeItemIndex s) (onModeChange s) (onModelChange s)
    (emitChanges_timeout s) (originX s) (originY s) (targetX s) (targetY s)
    (lastNode s) (mouseDown s) (mouseMoved s) (mouseX s) (mouseY s)
    (lastX s) (lastY s) (lastRawX s) (lastRawY s) (timers s) (nextTimer s)
    (effects s).

Definition set_mode v (s : Controller) : Controller :=
  Build_Controller (floorplan s) (canvasElement s) v (activeWall s)
    (activeCorner s) (_activeItemIndex s) (onModeChange s) (onModelChange s)
    (emitChanges_timeout s) (originX s) (originY s) (targetX s) (targetY s)
    (lastNode s) (mouseDown s) (mouseMoved s) (mouseX s) (mouseY s)
    (lastX s) (lastY s) (lastRawX s) (lastRawY s) (timers s) (nextTimer s)
    (effects s).

Definition set_activeWall v (s : Controller) : Controller :=
  Build_Controller (floorplan s) (canvasElement s) (mode s) v
    (activeCorner s) (_activeItemIndex s) (onModeChange s) (onModelChange s)
    (emitChanges_timeout s) (originX s) (originY s) (targetX s) (targetY s)
    (lastNode s) (mouseDown s) (mouseMoved s) (mouseX s) (mouseY s)
    (lastX s) (lastY s) (lastRawX s) (lastRawY s) (timers s) (nextTimer s)
    (effects s).

Definition set_activeCorner v (s : Controller) : Controller :=
  Build_Controller (floorplan s) (canvasElement s) (mode s) (activeWall s) v
    (_activeItemIndex s) (onModeChange s) (onModelChange s)
    (emitChanges_timeout s) (originX s) (originY s) (targetX s) (targetY s)
    (lastNode s) (mouseDown s) (mouseMoved s) (mouseX s) (mouseY s)
    (lastX s) (lastY s) (lastRawX s) (lastRawY s) (timers s) (nextTimer s)
    (effects s).

Definition set__activeItemIndex v (s : Controller) : Controller :=
  Build_Controller (floorplan s) (canvasElement s) (mode s) (activeWall s)
    (activeCorner s) v (onModeChange s) (onModelChange s)
    (emitChanges_timeout s) (originX s) (originY s) (targetX s) (targetY s)
    (lastNode s) (mouseDown s) (mouseMoved s) (mouseX s) (mouseY s)
    (lastX s) (lastY s) (lastRawX s) (lastRawY s) (timers s) (nextTimer s)
    (effects s).

Definition set_onModeChange v (s : Controller) : Controller :=
  Build_Controller (floorplan s) (canvasElement s) (mode s) (activeWall s)
    (activeCorner s) (_activeItemIndex s) v (onModelChange s)
    (emitChanges_timeout s) (originX s) (originY s) (targetX s) (targetY s)
    (lastNode s) (mouseDown s) (mouseMoved s) (mouseX s) (mouseY s)
    (lastX s) (lastY s) (lastRawX s) (lastRawY s) (timers s) (nextTimer s)
    (effects s).

Definition set_onModelChange v (s : Controller) : Controller :=
  Build_Controller (floorplan s) (canvasElement s) (mode s) (activeWall s)
    (activeCorner s) (_activeItemIndex s) (onModeChange s) v
    (emitChanges_timeout s) (originX s) (originY s) (targetX s) (targetY s)
    (lastNode s) (mouseDown s) (mouseMoved s) (mouseX s) (mouseY s)
    (lastX s) (lastY s) (lastRawX s) (lastRawY s) (timers s) (nextTimer s)
    (effects s).

Definition set_emitChanges_timeout v (s : Controller) : Controller :=
  Build_Controller (floorplan s) (canvasElement s) (mode s) (activeWall s)
    (activeCorner s) (_activeItemIndex s) (onModeChange s) (onModelChange s)
    v (originX s) (originY s) (targetX s) (targetY s) (lastNode s)
    (mouseDown s) (mouseMoved s) (mouseX s) (mouseY s) (lastX s) (lastY s)
    (lastRawX s) (lastRawY s) (timers s) (nextTimer s) (effects s).

Definition set_originX v (s : Controller) : Controller :=
  Build_Controller (floorplan s) (canvasElement s) (mode s) (activeWall s)
    (activeCorner s) (_activeItemIndex s) (onModeChange s) (onModelChange s)
    (emitChanges_timeout s) v (originY s) (targetX s) (targetY s)
    (lastNode s) (mouseDown s) (mouseMoved s) (mouseX s) (mouseY s)
    (lastX s) (lastY s) (lastRawX s) (lastRawY s) (timers s) (nextTimer s)
    (effects s).

Definition set_originY v (s : Controller) : Controller :=
  Build_Controller (floorplan s) (canvasElement s) (mode s) (activeWall s)
    (activeCorner s) (_activeItemIndex s) (onModeChange s) (onModelChange s)
    (emitChanges_timeout s) (originX s) v (targetX s) (targetY s)
    (lastNode s) (mouseDown s) (mouseMoved s) (mouseX s) (mouseY s)
    (lastX s) (lastY s) (lastRawX s) (lastRawY s) (timers s) (nextTimer s)
    (effects s).

Definition set_targetX v (s : Controller) : Controller :=
  Build_Controller (floorplan s) (canvasElement s) (mode s) (activeWall s)
    (activeCorner s) (_activeItemIndex s) (onModeChange s) (onModelChange s)
    (emitChanges_timeout s) (originX s) (originY s) v (targetY s)
    (lastNode s) (mouseDown s) (mouseMoved s) (mouseX s) (mouseY s)
    (lastX s) (lastY s) (lastRawX s) (lastRawY s) (timers s) (nextTimer s)
    (effects s).

Definition set_targetY v (s : Controller) : Controller :=
  Build_Controller (floorplan s) (canvasElement s) (mode s) (activeWall s)
    (activeCorner s) (_activeItemIndex s) (onModeChange s) (onModelChange s)
    (emitChanges_timeout s) (originX s) (originY s) (targetX s) v
    (lastNode s) (mouseDown s) (mouseMoved s) (mouseX s) (mouseY s)
    (lastX s) (lastY s) (lastRawX s) (lastRawY s) (timers s) (nextTimer s)
    (effects s).

Definition set_lastNode v (s : Controller) : Controller :=
  Build_Controller (floorplan s) (canvasElement s) (mode s) (activeWall s)
    (activeCorner s) (_activeItemIndex s) (onModeChange s) (onModelChange s)
    (emitChanges_timeout s) (originX s) (originY s) (targetX s) (targetY s)
    v (mouseDown s) (mouseMoved s) (mouseX s) (mouseY s) (lastX s) (lastY s)
    (lastRawX s) (lastRawY s) (timers s) (nextTimer s) (effects s).

Definition set_mouseDown v (s : Controller) : Controller :=
  Build_Controller (floorplan s) (canvasElement s) (mode s) (activeWall s)
    (activeCorner s) (_activeItemIndex s) (onModeChange s) (onModelChange s)
    (emitChanges_timeout s) (originX s) (originY s) (targetX s) (targetY s)
    (lastNode s) v (mouseMoved s) (mouseX s) (mouseY s) (lastX s) (lastY s)
    (lastRawX s) (lastRawY s) (timers s) (nextTimer s) (effects s).

Definition set_mouseMoved v (s : Controller) : Controller :=
  Build_Controller (floorplan s) (canvasElement s) (mode s) (activeWall s)
    (activeCorner s) (_activeItemIndex s) (onModeChange s) (onModelChange s)
    (emitChanges_timeout s) (originX s) (originY s) (targetX s) (targetY s)
    (lastNode s) (mouseDown s) v (mouseX s) (mouseY s) (lastX s) (lastY s)
    (lastRawX s) (lastRawY s) (timers s) (nextTimer s) (effects s).

Definition set_mouseX v (s : Controller) : Controller :=
  Build_Controller (floorplan s) (canvasElement s) (mode s) (activeWall s)
    (activeCorner s) (_activeItemIndex s) (onModeChange s) (onModelChange s)
    (emitChanges_timeout s) (originX s) (originY s) (targetX s) (targetY s)
    (lastNode s) (mouseDown s) (mouseMoved s) v (mouseY s) (lastX s)
    (lastY s) (lastRawX s) (lastRawY s) (timers s) (nextTimer s) (effects s).

Definition set_mouseY v (s : Controller) : Controller :=
  Build_Controller (floorplan s) (canvasElement s) (mode s) (activeWall s)
    (activeCorner s) (_activeItemIndex s) (onModeChange s) (onModelChange s)
    (emitChanges_timeout s) (originX s) (originY s) (targetX s) (targetY s)
    (lastNode s) (mouseDown s) (mouseMoved s) (mouseX s) v (lastX s)
    (lastY s) (lastRawX s) (lastRawY s) (timers s) (nextTimer s) (effects s).

Definition set_lastX v (s : Controller) : Controller :=
  Build_Controller (floorplan s) (canvasElement s) (mode s) (activeWall s)
    (activeCorner s) (_activeItemIndex s) (onModeChange s) (onModelChange s)
    (emitChanges_timeout s) (originX s) (originY s) (targetX s) (targetY s)
    (lastNode s) (mouseDown s) (mouseMoved s) (mouseX s) (mouseY s) v
    (lastY s) (lastRawX s) (lastRawY s) (timers s) (nextTimer s) (effects s).

Definition set_lastY v (s : Controller) : Controller :=
  Build_Controller (floorplan s) (canvasElement s) (mode s) (activeWall s)
    (activeCorner s) (_activeItemIndex s) (onModeChange s) (onModelChange s)
    (emitChanges_timeout s) (originX s) (originY s) (targetX s) (targetY s)
    (lastNode s) (mouseDown s) (mouseMoved s) (mouseX s) (mouseY s)
    (lastX s) v (lastRawX s) (lastRawY s) (timers s) (nextTimer s)
    (effects s).

Definition set_lastRawX v (s : Controller) : Controller :=
  Build_Controller (floorplan s) (canvasElement s) (mode s) (activeWall s)
    (activeCorner s) (_activeItemIndex s) (onModeChange s) (onModelChange s)
    (emitChanges_timeout s) (originX s) (originY s) (targetX s) (targetY s)
    (lastNode s) (mouseDown s) (mouseMoved s) (mouseX s) (mouseY s)
    (lastX s) (lastY s) v (lastRawY s) (timers s) (nextTimer s) (effects s).

Definition set_lastRawY v (s : Controller) : Controller :=
  Build_Controller (floorplan s) (canvasElement s) (mode s) (activeWall s)
    (activeCorner s) (_activeItemIndex s) (onModeChange s) (onModelChange s)
    (emitChanges_timeout s) (originX s) (originY s) (targetX s) (targetY s)
    (lastNode s) (mouseDown s) (mouseMoved s) (mouseX s) (mouseY s)
    (lastX s) (lastY s) (lastRawX s) v (timers s) (nextTimer s) (effects s).

Definition set_timers v (s : Controller) : Controller :=
  Build_Controller (floorplan s) (canvasElement s) (mode s) (activeWall s)
    (activeCorner s) (_activeItemIndex s) (onModeChange s) (onModelChange s)
    (emitChanges_timeout s) (originX s) (originY s) (targetX s) (targetY s)
    (lastNode s) (mouseDown s) (mouseMoved s) (mouseX s) (mouseY s)
    (lastX s) (lastY s) (lastRawX s) (lastRawY s) v (nextTimer s)
    (effects s).

Definition set_nextTimer v (s : Controller) : Controller :=
  Build_Controller (floorplan s) (canvasElement s) (mode s) (activeWall s)
    (activeCorner s) (_activeItemIndex s) (onModeChange s) (onModelChange s)
    (emitChanges_timeout s) (originX s) (originY s) (targetX s) (targetY s)
    (lastNode s) (mouseDown s) (mouseMoved s) (mouseX s) (mouseY s)
    (lastX s) (lastY s) (lastRawX s) (lastRawY s) (timers s) v (effects s).

Definition set_effects v (s : Controller) : Controller :=
  Build_Controller (floorplan s) (canvasElement s) (mode s) (activeWall s)
    (activeCorner s) (_activeItemIndex s) (onModeChange s) (onModelChange s)
    (emitChanges_timeout s) (originX s) (originY s) (targetX s) (targetY s)
    (lastNode s) (mouseDown s) (mouseMoved s) (mouseX s) (mouseY s)
    (lastX s) (lastY s) (lastRawX s) (lastRawY s) (timers s) (nextTimer s) v.

(** A call of a mutating method of the model. *)
Definition onFloorplan (f : FloorplanModel -> FloorplanModel) (s : Controller) : Controller :=
  set_floorplan (f (floorplan s)) s.

Definition perform (es : list (Effect FloorplanDto)) (s : Controller) : Controller :=
  set_effects (effects s ++ es) s.

(** [this.view.draw()] *)
Definition draw (s : Controller) : Controller := perform [ViewDraw] s.

(** [get activeItem()] *)
Definition activeItem (s : Controller) : Ref :=
  match _activeItemIndex s with
  | Some index =>
      match nth_error (getItems (floorplan s)) index with
      | Some item => Obj item
      | None => Undefined
      end
  | None => Null
  end.

(** [set activeItem(item)] *)
Definition set_activeItem (item : option Item) (s : Controller) : Controller :=
  let activeItem := activeItem s in
  let s :=
    if negb (strictEq item activeItem) then
      let s := match activeItem with
               | Obj a => onFloorplan (Item_endActive a) s
               | _ => s
               end in
      match item with
      | Some i => onFloorplan (Item_startActive i) s
      | None => s
      end
    else s in
  let index := match item with
               | Some i => indexOf i (getItems (floorplan s))
               | None => None
               end in
  set__activeItemIndex index s.

(** [fireChanges()] *)
Definition fireChanges (s : Controller) : Controller :=
  let ev := {| ModelChange.x := originX s;
               ModelChange.y := originY s;
               ModelChange.floorplane := exportFloorplan (floorplan s) |} in
  perform (map (fun call => ModelListener (fst call) (snd call))
               (Callback.fire ev (onModelChange s))) s.

(** [clearTimeout(id)] *)
Definition clearTimeout (id : nat) (s : Controller) : Controller :=
  set_timers (filter (fun t => negb (tid t =? id)) (timers s)) s.

(** [setTimeout(later, delay)]: the new handle is [nextTimer s]. *)
Definition setTimeout (delay : nat) (s : Controller) : Controller :=
  set_nextTimer (S (nextTimer s))
    (set_timers (timers s ++ [{| tid := nextTimer s; remaining := delay |}]) s).

(** Modelled from the spec: the function returned by [debounce] (a
    package the controller imports).  Each call cancels the timer armed by
    the previous call, if it is still pending, and arms a new one for the
    whole quiet period. *)
Definition emitChanges (s : Controller) : Controller :=
  let s := match emitChanges_timeout s with
           | Some id => clearTimeout id s
           | None => s
           end in
  set_emitChanges_timeout (Some (nextTimer s)) (setTimeout wait s).

(** Modelled from the spec: what the debounce timer does when it expires:
    it forgets its handle and runs the wrapped function,
    [() => { this.fireChanges(); }]. *)
Definition later (s : Controller) : Controller :=
  fireChanges (set_emitChanges_timeout None s).

(** [dt] milliseconds pass with no event handled: the timers that are due
    leave the queue and run, oldest first. *)
Definition elapse (dt : nat) (s : Controller) : Controller :=
  let due := filter (fun t => remaining t <=? dt) (timers s) in
  let pending := filter (fun t => negb (remaining t <=? dt)) (timers s) in
  let s := set_timers
             (map (fun t => {| tid := tid t; remaining := remaining t - dt |}) pending) s in
  fold_left (fun s _ => later s) due s.

(** [updateTarget()] *)
Definition updateTarget (s : Controller) : Controller :=
  match mode s, lastNode s with
  | DRAW, Some lastNode =>
      let s :=
        if Qltb (Qabs (mouseX s - Corner_x (floorplan s) lastNode)) snapTolerance
        then set_targetX (Corner_x (floorplan s) lastNode) s
        else set_targetX (mouseX s) s in
      if Qltb (Qabs (mouseY s - Corner_y (floorplan s) lastNode)) snapTolerance
      then set_targetY (Corner_y (floorplan s) lastNode) s
      else set_targetY (mouseY s) s
  | _, _ =>
      set_targetY (mouseY s) (set_targetX (mouseX s) s)
  end.

(** [setMode(mode)] *)
Definition setMode (newMode : FloorplanMode) (s : Controller) : Controller :=
  let s := set_activeWall None s in
  let s := set_activeCorner None s in
  let s := set_activeItem None s in
  let s := set_lastNode None s in
  let s := onFloorplan (setSelectedItem None false) s in
  let s := set_mode newMode s in
  let s := updateTarget s in
  perform (map (fun call => ModeListener (fst call) (snd call))
               (Callback.fire newMode (onModeChange s))) s.

(** [escapeKey()] *)
Definition escapeKey (s : Controller) : Controller := setMode MOVE s.

(** The condition of [checkWallDuplicates] on a pair of walls. *)
Definition isDuplicate (fp : FloorplanModel) (wall wallCheck : Wall) : bool :=
  negb (wall =? wallCheck) &&
  ((Wall_getEnd fp wall =? Wall_getEnd fp wallCheck) &&
   (Wall_getStart fp wall =? Wall_getStart fp wallCheck)
   ||
   (Wall_getEnd fp wall =? Wall_getStart fp wallCheck) &&
   (Wall_getStart fp wall =? Wall_getEnd fp wallCheck)).

(** The two nested loops of [checkWallDuplicates]: for each wall, in
    order, the later walls that duplicate it are pushed. *)
Fixpoint duplicates (fp : FloorplanModel) (walls : list Wall) : list Wall :=
  match walls with
  | [] => []
  | wall :: rest => filter (isDuplicate fp wall) rest ++ duplicates fp rest
  end.

(** [checkWallDuplicates()] *)
Definition checkWallDuplicates (s : Controller) : Controller :=
  let walls := getWalls (floorplan s) in
  fold_left (fun s wall => onFloorplan (Wall_remove wall) s)
            (duplicates (floorplan s) walls) s.

(** [mousedown(event)] *)
Definition mousedown (event : MouseEvent) (s : Controller) : Controller :=
  let s := set_mouseDown true s in
  let s := set_mouseMoved false s in
  let s := set_lastX (mouseX s) s in
  let s := set_lastY (mouseY s) s in
  let s := set_lastRawX (clientX event) s in
  let s := set_lastRawY (clientY event) s in
  let selectedItem := getSelectedItem (floorplan s) in
  let s :=
    if FloorplanMode_eqb (mode s) DELETE then
      match activeCorner s with
      | Some corner => emitChanges (onFloorplan (Corner_removeAll corner) s)
      | None =>
          match activeWall s with
          | Some wall => emitChanges (onFloorplan (Wall_remove wall) s)
          | None =>
              match activeItem s with
              | Obj item => emitChanges (onFloorplan (Item_remove item) s)
              | _ => setMode MOVE s
              end
          end
      end
    else
      match selectedItem with
      | Some item => onFloorplan (Item_mousedown item (mouseX s) (mouseY s)) s
      | None => s
      end in
  draw s.

(** [mousemove], the block under "update object target".  The local
    [draw] travels with the state. *)
Definition mousemove_hover (s : Controller) : Controller :=
  let draw0 := false in
  let hoverItem := overlappedItem (floorplan s) (mouseX s) (mouseY s) in
  let draw1 := if negb (strictEq hoverItem (activeItem s)) then true else draw0 in
  let r :=
    match hoverItem with
    | Some _ =>
        let s := set_activeItem hoverItem s in
        let s := set_activeCorner None s in
        let s := set_activeWall None s in
        (draw1, s)
    | None =>
        let s := set_activeItem None s in
        let hoverCorner := overlappedCorner (floorplan s) (mouseX s) (mouseY s) in
        let hoverWall := overlappedWall (floorplan s) (mouseX s) (mouseY s) in
        let r :=
          if negb (option_eqb hoverCorner (activeCorner s))
          then (true, set_activeCorner hoverCorner s)
          else (draw1, s) in
        match activeCorner (snd r) with
        | None =>
            if negb (option_eqb hoverWall (activeWall (snd r)))
            then (true, set_activeWall hoverWall (snd r))
            else r
        | Some _ => (fst r, set_activeWall None (snd r))
        end
    end in
  if fst r then draw (snd r) else snd r.

(** [mousemove], the block under "panning".  [originX -= clientX - lastRawX]
    is exact here and rounded in the source. *)
Definition mousemove_pan (event : MouseEvent) (s : Controller) : Controller :=
  let s := set_originX (originX s - (clientX event - lastRawX s)) s in
  let s := set_originY (originY s - (clientY event - lastRawY s)) s in
  let s := set_lastRawX (clientX event) s in
  let s := set_lastRawY (clientY event) s in
  draw s.

(** [mousemove], the block under "dragging". *)
Definition mousemove_drag (selectedItem : option Item) (s : Controller) : Controller :=
  let owned :=
    match selectedItem with
    | Some item =>
        if strictEq selectedItem (activeItem s) then
          let r := Item_mousemove item (mouseX s) (mouseY s) (lastX s) (lastY s)
                                  (floorplan s) in
          (fst r, set_floorplan (snd r) s)
        else (false, s)
    | None => (false, s)
    end in
  let s := snd owned in
  let s :=
    if fst owned then emitChanges s
    else
      match activeItem s with
      | Obj item =>
          let s := onFloorplan
                     (Item_relativeMove item (mouseX s - lastX s) (mouseY s - lastY s)) s in
          emitChanges s
      | _ =>
          match activeCorner s with
          | Some corner =>
              let s := onFloorplan (Corner_move corner (mouseX s) (mouseY s)) s in
              let s := onFloorplan (Corner_snapToAxis corner snapTolerance) s in
              let s := checkWallDuplicates s in
              emitChanges s
          | None =>
              match activeWall s with
              | Some wall =>
                  let s := onFloorplan
                             (Wall_relativeMove wall (mouseX s - lastX s)
                                                (mouseY s - lastY s)) s in
                  let s := onFloorplan (Wall_snapToAxis wall snapTolerance) s in
                  let s := checkWallDuplicates s in
                  emitChanges s
              | None => s
              end
          end
      end in
  let s := set_lastX (mouseX s) s in
  let s := set_lastY (mouseY s) s in
  draw s.

(** [mousemove(event)].  The two assignments under "update mouse" are exact
    here and rounded in the source; the conditions of the four blocks read
    no number. *)
Definition mousemove (event : MouseEvent) (s : Controller) : Controller :=
  let s := set_mouseMoved true s in
  let s := set_mouseX ((clientX event - left (canvasElement s)) * cmPerPixel
                       + originX s * cmPerPixel) s in
  let s := set_mouseY ((clientY event - top (canvasElement s)) * cmPerPixel
                       + originY s * cmPerPixel) s in
  let selectedItem := getSelectedItem (floorplan s) in
  let s :=
    if FloorplanMode_eqb (mode s) DRAW
       || (FloorplanMode_eqb (mode s) MOVE && mouseDown s)
    then draw (updateTarget s) else s in
  let s :=
    if negb (FloorplanMode_eqb (mode s) DRAW) && negb (mouseDown s)
    then mousemove_hover s else s in
  let s :=
    if mouseDown s && negb (isSome (activeCorner s)) && negb (isSome (activeWall s))
       && negb (truthy (activeItem s))
    then mousemove_pan event s else s in
  if FloorplanMode_eqb (mode s) MOVE && mouseDown s
  then mousemove_drag selectedItem s else s.

(** [mouseup()] *)
Definition mouseup (s : Controller) : Controller :=
  let s := set_mouseDown false s in
  let selectedItem := getSelectedItem (floorplan s) in
  let s :=
    match selectedItem with
    | Some item =>
        let r := Item_mouseup item (mouseX s) (mouseY s) (floorplan s) in
        let s := set_floorplan (snd r) s in
        if fst r then emitChanges (draw s) else s
    | None => s
    end in
  if FloorplanMode_eqb (mode s) DRAW && negb (mouseMoved s) then
    let r := newCorner (targetX s) (targetY s) (floorplan s) in
    let corner := fst r in
    let s := set_floorplan (snd r) s in
    let s := match lastNode s with
             | Some lastNode => onFloorplan (newWall lastNode corner) s
             | None => s
             end in
    let merged := Corner_mergeWithIntersected corner (floorplan s) in
    let s := set_floorplan (snd merged) s in
    let s := if fst merged && isSome (lastNode s) then setMode MOVE s else s in
    let s := set_lastNode (Some corner) s in
    let s := checkWallDuplicates s in
    let s := draw s in
    emitChanges s
  else if negb (mouseMoved s) && FloorplanMode_eqb (mode s) MOVE then
    let s := match activeItem s with
             | Obj item => onFloorplan (setSelectedItem (Some item) true) s
             | _ => onFloorplan (setSelectedItem None true) s
             end in
    draw s
  else s.

(** [mouseleave()] *)
Definition mouseleave (s : Controller) : Controller :=
  let s := set_mouseDown false s in
  let s := set_activeCorner None s in
  let s := set_activeWall None s in
  let s := set_activeItem None s in
  draw s.

(** [resizeView()] *)
Definition resizeView (s : Controller) : Controller :=
  perform [ViewHandleWindowResize] s.

(** [resetOrigin()]: sets the origin so that floorplan is centered.  The
    pair returned by the model's [getCenter] stands for its [x] and [z];
    the two assignments are exact here and rounded in the source. *)
Definition resetOrigin (s : Controller) : Controller :=
  let centerX := width (canvasElement s) / 2 in
  let centerY := height (canvasElement s) / 2 in
  let centerFloorplan := Floorplan_getCenter (floorplan s) in
  let s := set_originX (fst centerFloorplan * pixelsPerCm - centerX) s in
  set_originY (snd centerFloorplan * pixelsPerCm - centerY) s.

(** [reset()] *)
Definition reset (s : Controller) : Controller :=
  let s := resizeView s in
  let s := setMode MOVE s in
  let s := resetOrigin s in
  draw s.

(** [getCenter()]: the center of the view (exact here, rounded in the
    source). *)
Definition getCenter (s : Controller) : Q * Q :=
  let centerX := width (canvasElement s) / 2 in
  let centerY := height (canvasElement s) / 2 in
  ((originX s + centerX) * cmPerPixel, (originY s + centerY) * cmPerPixel).

(** [convertX(x)]: from model coordinates to canvas coordinates (exact
    here, rounded in the source). *)
Definition convertX (s : Controller) (x : Q) : Q :=
  (x - originX s * cmPerPixel) * pixelsPerCm.

(** [convertY(y)] (exact here, rounded in the source). *)
Definition convertY (s : Controller) (y : Q) : Q :=
  (y - originY s * cmPerPixel) * pixelsPerCm.

(** The field initialisers, followed by the constructor's
    [this.setMode(FloorplanMode.MOVE)]. *)
Definition create (canvas : DOMRect) (fp : FloorplanModel) : Controller :=
  setMode MOVE
    {| floorplan := fp; canvasElement := canvas; mode := MOVE;
       activeWall := None; activeCorner := None; _activeItemIndex := None;
       onModeChange := Callback.empty; onModelChange := Callback.empty;
       emitChanges_timeout := None;
       originX := 0; originY := 0; targetX := 0; targetY := 0;
       lastNode := None; mouseDown := false; mouseMoved := false;
       mouseX := 0; mouseY := 0; lastX := 0; lastY := 0;
       lastRawX := 0; lastRawY := 0;
       timers := []; nextTimer := 0%nat; effects := [] |}.

(** What can happen to a controller: the DOM events it listens to, the
    room-loaded hook of the model, calls of its public [setMode] and of
    the [add] and [remove] of its two channels, time passing, and other
    code mutating the floorplan model between two events. *)
Inductive Event :=
| Mousedown (event : MouseEvent)
| Mousemove (event : MouseEvent)
| Mouseup
| Mouseleave
| Keyup (keyCode : nat)
| RoomLoaded
| SetMode (newMode : FloorplanMode)
| ModeListen (add : bool) (fn : Callback.Listener)
| ModelListen (add : bool) (fn : Callback.Listener)
| Elapse (dt : nat)
| Outside (f : FloorplanModel -> FloorplanModel).

Definition listen (add : bool) (fn : Callback.Listener) (c : Callback.t) : Callback.t :=
  if add then Callback.add fn c else Callback.remove fn c.

Definition handle (e : Event) (s : Controller) : Controller :=
  match e with
  | Mousedown event => mousedown event s
  | Mousemove event => mousemove event s
  | Mouseup => mouseup s
  | Mouseleave => mouseleave s
  | Keyup keyCode => if keyCode =? 27 then escapeKey s else s
  | RoomLoaded => reset s
  | SetMode newMode => setMode newMode s
  | ModeListen add fn => set_onModeChange (listen add fn (onModeChange s)) s
  | ModelListen add fn => set_onModelChange (listen add fn (onModelChange s)) s
  | Elapse dt => elapse dt s
  | Outside f => onFloorplan f s
  end.

(** The controller after a history of events, oldest first. *)
Definition run (es : list Event) (s : Controller) : Controller :=
  fold_left (fun s e => handle e s) es s.

End Controller.

Arguments Controller : clear implicits.

(** ** What the controller relies on from its collaborators *)

(** Modelled from the spec: hit-testing of the floorplan model ("hit-testing
    by position" over its item collection) and the activation of an item
    ("deactivate previous, activate new"), which marks the item and leaves
    the collections and the geometry of corners and walls alone. *)
Class HoverLaws {FloorplanModel FloorplanDto : Type}
  (api : FloorplanAPI FloorplanModel FloorplanDto) : Prop := {
  overlappedItem_listed :
    forall fp x y item, overlappedItem fp x y = Some item -> In item (getItems fp);
  startActive_getItems :
    forall item fp, getItems (Item_startActive item fp) = getItems fp;
  endActive_getItems :
    forall item fp, getItems (Item_endActive item fp) = getItems fp;
  endActive_overlappedCorner :
    forall item fp x y,
      overlappedCorner (Item_endActive item fp) x y = overlappedCorner fp x y;
  endActive_overlappedWall :
    forall item fp x y,
      overlappedWall (Item_endActive item fp) x y = overlappedWall fp x y
}.

(** Modelled from the spec: the model's selection ("selection get/set"):
    clearing it leaves no selected item and touches no collection. *)
Class SelectionLaws {FloorplanModel FloorplanDto : Type}
  (api : FloorplanAPI FloorplanModel FloorplanDto) : Prop := {
  setSelectedItem_clear :
    forall b fp, getSelectedItem (setSelectedItem None b fp) = None;
  setSelectedItem_getCorners :
    forall o b fp, getCorners (setSelectedItem o b fp) = getCorners fp;
  setSelectedItem_getWalls :
    forall o b fp, getWalls (setSelectedItem o b fp) = getWalls fp;
  setSelectedItem_getItems :
    forall o b fp, getItems (setSelectedItem o b fp) = getItems fp
}.

(** A wall is connected to a corner when it starts or ends there. *)
Definition connected {FloorplanModel FloorplanDto : Type}
  {api : FloorplanAPI FloorplanModel FloorplanDto}
  (fp : FloorplanModel) (corner : Corner) (wall : Wall) : bool :=
  (Wall_getStart fp wall =? corner) || (Wall_getEnd fp wall =? corner).

(** Modelled from the spec: removal of entities.  [Wall.remove] and
    [Item.remove] take the entity out of the model's collection;
    [Corner.removeAll] takes out the corner "together with its connected
    walls". *)
Class RemovalLaws {FloorplanModel FloorplanDto : Type}
  (api : FloorplanAPI FloorplanModel FloorplanDto) : Prop := {
  Wall_remove_getWalls :
    forall wall fp,
      getWalls (Wall_remove wall fp) = filter (fun w => negb (w =? wall)) (getWalls fp);
  Item_remove_getItems :
    forall item fp,
      getItems (Item_remove item fp) = filter (fun i => negb (i =? item)) (getItems fp);
  Corner_removeAll_getCorners :
    forall corner fp,
      getCorners (Corner_removeAll corner fp)
      = filter (fun c => negb (c =? corner)) (getCorners fp);
  Corner_removeAll_getWalls :
    forall corner fp,
      getWalls (Corner_removeAll corner fp)
      = filter (fun w => negb (connected fp corner w)) (getWalls fp)
}.

(** ** Notions of the specification *)

Section Notions.

Context {FloorplanModel FloorplanDto : Type}.
Context {api : FloorplanAPI FloorplanModel FloorplanDto}.

Local Abbreviation Controller := (Controller FloorplanModel FloorplanDto).

(** Two walls connect the same two corners, in either orientation. *)
Definition sameCorners (fp : FloorplanModel) (a b : Wall) : bool :=
  (Wall_getStart fp a =? Wall_getStart fp b) && (Wall_getEnd fp a =? Wall_getEnd fp b)
  || (Wall_getStart fp a =? Wall_getEnd fp b) && (Wall_getEnd fp a =? Wall_getStart fp b).


(** At most one of active corner, active wall and active item is set. *)
Definition exclusive (s : Controller) : Prop :=
  match activeCorner s, activeWall s, activeItem s with
  | Some _, None, (Null | Undefined) => True
  | None, Some _, (Null | Undefined) => True
  | None, None, _ => True
  | _, _, _ => False
  end.

(** The stored hit result. *)
Definition selection (s : Controller) : option Corner * option Wall * option nat :=
  (activeCorner s, activeWall s, _activeItemIndex s).

(** At most one of the three stored hit results is set ([activeItem] is
    read through [_activeItemIndex]). *)
Definition exclusiveFields (s : Controller) : Prop :=
  match selection s with
  | (Some _, None, None) | (None, Some _, None) | (None, None, _) => True
  | _ => False
  end.

(** From [s] to [s'], a hit result that was set anew is the only one set. *)
Definition setsOneOnly (s s' : Controller) : Prop :=
  (forall corner, activeCorner s' = Some corner -> activeCorner s' <> activeCorner s ->
     activeWall s' = None /\ _activeItemIndex s' = None)
  /\ (forall wall, activeWall s' = Some wall -> activeWall s' <> activeWall s ->
        activeCorner s' = None /\ _activeItemIndex s' = None)
  /\ (forall index, _activeItemIndex s' = Some index ->
        _activeItemIndex s' <> _activeItemIndex s ->
        activeCorner s' = None /\ activeWall s' = None).

(** All active selections and the selected item are cleared and the
    last-placed corner is reset. *)
Definition cleared (s : Controller) : Prop :=
  activeCorner s = None /\ activeWall s = None /\ activeItem s = Null
  /\ getSelectedItem (floorplan s) = None /\ lastNode s = None.

(** The model-changed notifications delivered so far, oldest first. *)
Definition modelChanges (s : Controller)
  : list (Callback.Listener * ModelChange.t FloorplanDto) :=
  flat_map (fun e => match e with
                     | ModelListener fn ev => [(fn, ev)]
                     | _ => []
                     end) (effects s).

(** The mode-changed notifications delivered so far, oldest first. *)
Definition modeChanges (s : Controller) : list (Callback.Listener * FloorplanMode) :=
  flat_map (fun e => match e with
                     | ModeListener fn m => [(fn, m)]
                     | _ => []
                     end) (effects s).

(** From [s] to [s'] a change notification was scheduled: a timer for the
    whole quiet period [wait] is pending under the handle the debounced
    emitter keeps, and nothing was delivered yet. *)
Definition scheduled (wait : nat) (s s' : Controller) : Prop :=
  emitChanges_timeout s' = Some (nextTimer s)
  /\ In {| tid := nextTimer s; remaining := wait |} (timers s')
  /\ modelChanges s' = modelChanges s.

(** The debounced emitter and the timer queue agree: either nothing is
    pending, or the one pending timer is the emitter's. *)
Definition debounced (s : Controller) : Prop :=
  match emitChanges_timeout s with
  | Some id => exists left, timers s = [{| tid := id; remaining := left |}]
  | None => timers s = []
  end.

(** An assignment that leaves the timers and the emitter's handle alone. *)
Definition quiet (f : Controller -> Controller) : Prop :=
  forall s, timers (f s) = timers s /\ emitChanges_timeout (f s) = emitChanges_timeout s.

(** A burst of model mutations: before each one some time passes, and each
    one triggers the debounced emitter. *)
Definition burst (wait : nat) (steps : list (nat * (FloorplanModel -> FloorplanModel)))
  (s : Controller) : Controller :=
  fold_left (fun s step => emitChanges wait (onFloorplan (snd step) (elapse (fst step) s)))
            steps s.

(** The payload a notification fired in state [s] carries. *)
Definition payload (s : Controller) : ModelChange.t FloorplanDto :=
  {| ModelChange.x := originX s;
     ModelChange.y := originY s;
     ModelChange.floorplane := exportFloorplan (floorplan s) |}.

(** The origin coordinate after a run of panning moves: the update
    [origin -= client - lastRaw; lastRaw = client] of [mousemove], applied
    to the raw pointer coordinates in order. *)
Fixpoint panned (origin lastRaw : Q) (clients : list Q) : Q :=
  match clients with
  | [] => origin
  | client :: clients => panned (origin - (client - lastRaw)) client clients
  end.

(** The redraws requested so far. *)
Definition redraws (s : Controller) : nat :=
  length (filter (fun e => match e with ViewDraw => true | _ => false end) (effects s)).

End Notions.

(** ** A reference floorplan model *)

(** Modelled from the spec: a floorplan model with the collections, the
    selection and the entity operations the controller consumes (the
    classes [FloorplanModel], [Corner], [Wall] and [Item] are imported by
    the controller).  An entity is an object: its fields are read from a
    store that outlives its membership of a collection.  Geometry is kept
    to the minimum: an entity is hit within a fixed distance of its
    position, a wall at its midpoint, and a corner merges with another
    corner at the same spot. *)
Module Plan.

Record t := {
  corners : list Corner;
  position : Corner -> Q * Q;
  walls : list Wall;
  ends : Wall -> Corner * Corner;
  items : list Item;
  place : Item -> Q * Q;
  hover : Item -> bool;
  selected : option Item;
  fresh : nat
}.

Definition tolerance : Q := 20.

Definition near (p q : Q * Q) : bool :=
  Qltb (Qabs (fst p - fst q)) tolerance && Qltb (Qabs (snd p - snd q)) tolerance.

Definition midpoint (fp : t) (w : Wall) : Q * Q :=
  let a := position fp (fst (ends fp w)) in
  let b := position fp (snd (ends fp w)) in
  ((fst a + fst b) / 2, (snd a + snd b) / 2).

Definition update (A : Type) (k : nat) (v : A) (f : nat -> A) : nat -> A :=
  fun k' => if k' =? k then v else f k'.

Definition withCorners (l : list Corner) (f : Corner -> Q * Q) (fp : t) : t :=
  {| corners := l; position := f; walls := walls fp; ends := ends fp;
     items := items fp; place := place fp; hover := hover fp;
     selected := selected fp; fresh := fresh fp |}.

Definition withWalls (l : list Wall) (f : Wall -> Corner * Corner) (fp : t) : t :=
  {| corners := corners fp; position := position fp; walls := l; ends := f;
     items := items fp; place := place fp; hover := hover fp;
     selected := selected fp; fresh := fresh fp |}.

Definition withItems (l : list Item) (f : Item -> Q * Q) (h : Item -> bool) (fp : t) : t :=
  {| corners := corners fp; position := position fp; walls := walls fp;
     ends := ends fp; items := l; place := f; hover := h;
     selected := selected fp; fresh := fresh fp |}.

Definition withSelected (v : option Item) (fp : t) : t :=
  {| corners := corners fp; position := position fp; walls := walls fp;
     ends := ends fp; items := items fp; place := place fp; hover := hover fp;
     selected := v; fresh := fresh fp |}.

Definition withFresh (v : nat) (fp : t) : t :=
  {| corners := corners fp; position := position fp; walls := walls fp;
     ends := ends fp; items := items fp; place := place fp; hover := hover fp;
     selected := selected fp; fresh := v |}.

Definition moveCorner (c : Corner) (p : Q * Q) (fp : t) : t :=
  withCorners (corners fp) (update c p (position fp)) fp.

Definition shift (dx dy : Q) (p : Q * Q) : Q * Q := (fst p + dx, snd p + dy).

Definition setHover (i : Item) (b : bool) (fp : t) : t :=
  withItems (items fp) (place fp) (update i b (hover fp)) fp.

Definition moveItem (i : Item) (dx dy : Q) (fp : t) : t :=
  withItems (items fp) (update i (shift dx dy (place fp i)) (place fp)) (hover fp) fp.

Definition newCorner (x y : Q) (fp : t) : Corner * t :=
  (fresh fp,
   withFresh (S (fresh fp))
     (withCorners (corners fp ++ [fresh fp]) (update (fresh fp) (x, y) (position fp)) fp)).

Definition newWall (a b : Corner) (fp : t) : t :=
  withFresh (S (fresh fp))
    (withWalls (walls fp ++ [fresh fp]) (update (fresh fp) (a, b) (ends fp)) fp).

Definition removeWall (w : Wall) (fp : t) : t :=
  withWalls (filter (fun k => negb (k =? w)) (walls fp)) (ends fp) fp.

Definition removeItem (i : Item) (fp : t) : t :=
  withItems (filter (fun k => negb (k =? i)) (items fp)) (place fp) (hover fp) fp.

Definition removeAll (c : Corner) (fp : t) : t :=
  withCorners (filter (fun k => negb (k =? c)) (corners fp)) (position fp)
    (withWalls
       (filter (fun w => negb ((fst (ends fp w) =? c) || (snd (ends fp w) =? c)))
               (walls fp))
       (ends fp) fp).

Definition redirect (from to : Corner) (e : Corner * Corner) : Corner * Corner :=
  (if fst e =? from then to else fst e, if snd e =? from then to else snd e).

Definition mergeWithIntersected (c : Corner) (fp : t) : bool * t :=
  match find (fun k => negb (k =? c) && near (position fp k) (position fp c))
             (corners fp) with
  | Some k =>
      (true,
       withCorners (filter (fun k' => negb (k' =? c)) (corners fp)) (position fp)
         (withWalls (walls fp) (fun w => redirect c k (ends fp w)) fp))
  | None => (false, fp)
  end.

End Plan.

#[export] Instance Plan_API : FloorplanAPI Plan.t Plan.t := {|
  getItems := Plan.items;
  getWalls := Plan.walls;
  getCorners := Plan.corners;
  getSelectedItem := Plan.selected;
  setSelectedItem o _ := Plan.withSelected o;
  overlappedItem fp x y := find (fun i => Plan.near (x, y) (Plan.place fp i)) (Plan.items fp);
  overlappedCorner fp x y :=
    find (fun c => Plan.near (x, y) (Plan.position fp c)) (Plan.corners fp);
  overlappedWall fp x y := find (fun w => Plan.near (x, y) (Plan.midpoint fp w)) (Plan.walls fp);
  newCorner := Plan.newCorner;
  newWall := Plan.newWall;
  Floorplan_getCenter _ := (0, 0);
  exportFloorplan fp := fp;
  Corner_x fp c := fst (Plan.position fp c);
  Corner_y fp c := snd (Plan.position fp c);
  Corner_removeAll := Plan.removeAll;
  Corner_move c x y := Plan.moveCorner c (x, y);
  Corner_snapToAxis _ _ fp := fp;
  Corner_mergeWithIntersected := Plan.mergeWithIntersected;
  Wall_getStart fp w := fst (Plan.ends fp w);
  Wall_getEnd fp w := snd (Plan.ends fp w);
  Wall_remove := Plan.removeWall;
  Wall_relativeMove w dx dy fp :=
    let a := fst (Plan.ends fp w) in
    let b := snd (Plan.ends fp w) in
    let fp := Plan.moveCorner a (Plan.shift dx dy (Plan.position fp a)) fp in
    Plan.moveCorner b (Plan.shift dx dy (Plan.position fp b)) fp;
  Wall_snapToAxis _ _ fp := fp;
  Item_remove := Plan.removeItem;
  Item_startActive i := Plan.setHover i true;
  Item_endActive i := Plan.setHover i false;
  Item_mousedown _ _ _ fp := fp;
  Item_mousemove _ _ _ _ _ fp := (false, fp);
  Item_mouseup _ _ _ fp := (false, fp);
  Item_relativeMove := Plan.moveItem
|}.

(** ** A sample floorplan and sample histories *)

Module Demo.

(** Three corners, two walls between the same two of them (in opposite
    orientations) and a third wall, one item. *)
Definition plan : Plan.t :=
  {| Plan.corners := [1; 2; 3]%nat;
     Plan.position := fun c => match c with
                               | 1%nat => (0, 0)
                               | 2%nat => (400, 0)
                               | 3%nat => (400, 300)
                               | _ => (0, 0)
                               end;
     Plan.walls := [10; 11; 12]%nat;
     Plan.ends := fun w => match w with
                           | 10%nat => (1, 2)
                           | 11%nat => (2, 3)
                           | 12%nat => (2, 1)
                           | _ => (0, 0)
                           end%nat;
     Plan.items := [20]%nat;
     Plan.place := fun _ => (200, 500);
     Plan.hover := fun _ => false;
     Plan.selected := None;
     Plan.fresh := 30%nat |}.

Definition canvas : DOMRect :=
  {| left := 10; top := 20; width := 800; height := 600 |}.

(** The quiet period used in the samples (milliseconds). *)
Definition wait : nat := 100.

(** The canvas pixel an event has to report for the pointer to be at the
    model position [(x, y)] while the view origin is [(0, 0)]. *)
Definition at_ (x y : Q) : MouseEvent :=
  {| clientX := x * pixelsPerCm + left canvas;
     clientY := y * pixelsPerCm + top canvas |}.

Definition start : Controller Plan.t Plan.t := create canvas plan.

(** Two clicks in DRAW mode, on the corners at (0, 0) and at (400, 0). *)
Definition twoClicks : list (Event (FloorplanModel := Plan.t)) :=
  [ SetMode DRAW;
    Mousemove (at_ 0 0); Mousedown (at_ 0 0); Mouseup;
    Mousemove (at_ 400 0); Mousedown (at_ 400 0) ].

(** The state in which the second click is released. *)
Definition beforeRelease : Controller Plan.t Plan.t := run wait twoClicks start.

(** DRAW mode, one corner placed at (0, 0), pointer at (10, 100). *)
Definition drawing : Controller Plan.t Plan.t :=
  run wait [ SetMode DRAW; Mousemove (at_ 0 0); Mousedown (at_ 0 0); Mouseup;
             Mousemove (at_ 10 100) ] start.

(** DELETE mode with the pointer over the corner at (400, 0). *)
Definition deleting : Controller Plan.t Plan.t :=
  run wait [ SetMode DELETE; Mousemove (at_ 400 0) ] start.


End Demo.

(** * Properties *)

(** ** The observer channel *)

Lemma callbacks_fold_add (fns : list Callback.Listener) (c : Callback.t) :
  Callback.callbacks (fold_left (fun c fn => Callback.add fn c) fns c)
  = Callback.callbacks c ++ fns.
Proof.
  revert c; induction fns as [|fn fns IH]; intros c; simpl.
  - now rewrite app_nil_r.
  - rewrite IH; simpl. now rewrite <- app_assoc.
Qed.

Lemma callbacks_registered (fns : list Callback.Listener) :
  Callback.callbacks (Callback.registered fns) = fns.
Proof. unfold Callback.registered. now rewrite callbacks_fold_add. Qed.

Lemma invocations_fire_remove (T : Type) (fn : Callback.Listener) (event : T) (c : Callback.t) :
  Callback.invocations fn (Callback.fire event (Callback.remove fn c)) = 0%nat.
Proof.
  unfold Callback.invocations, Callback.fire, Callback.remove; simpl.
  induction (Callback.callbacks c) as [|f l IH]; simpl; [reflexivity|].
  destruct (f =? fn) eqn:E; simpl; [exact IH|].
  rewrite E. exact IH.
Qed.

(** C10. However often the listener [fn] was registered, after one
    [remove(fn)] a [fire] does not invoke it at all; it invokes the other
    listeners, each once per registration, in the order they were
    registered, and hands the payload to each. *)
Theorem Callback_remove_fire :
  forall (T : Type) (fns : list Callback.Listener) (fn : Callback.Listener) (event : T),
    let c := Callback.remove fn (Callback.registered fns) in
    Callback.invocations fn (Callback.fire event c) = 0%nat
    /\ Callback.fire event c
       = map (fun f => (f, event)) (filter (fun f => negb (f =? fn)) fns)
    /\ Callback.fire event (Callback.registered fns) = map (fun f => (f, event)) fns.
Proof.
  intros T fns fn event c. split; [apply invocations_fire_remove|].
  unfold c, Callback.fire, Callback.remove; simpl.
  now rewrite callbacks_registered.
Qed.

Lemma invocations_fire_count (T : Type) (fn : Callback.Listener) (event : T)
  (l : list Callback.Listener) :
  Callback.invocations fn (Callback.fire event {| Callback.callbacks := l |})
  = count_occ Nat.eq_dec l fn.
Proof.
  unfold Callback.invocations, Callback.fire; simpl.
  induction l as [|f l IH]; simpl; [reflexivity|].
  destruct (Nat.eq_dec f fn) as [->|Hne].
  - rewrite Nat.eqb_refl. simpl. now rewrite IH.
  - apply Nat.eqb_neq in Hne. rewrite Hne. exact IH.
Qed.

(** X1. Registration does not deduplicate: a fire invokes a listener once for
    each time it was added. *)
Theorem Callback_fire_counts_registrations :
  forall (T : Type) (fns : list Callback.Listener) (fn : Callback.Listener) (event : T),
    Callback.invocations fn (Callback.fire event (Callback.registered fns))
    = count_occ Nat.eq_dec fns fn.
Proof.
  intros T fns fn event.
  rewrite <- (callbacks_registered fns) at 2.
  destruct (Callback.registered fns) as [l]. apply invocations_fire_count.
Qed.

Lemma filter_other (fn g : Callback.Listener) (l : list Callback.Listener) :
  g <> fn ->
  count_occ Nat.eq_dec (filter (fun f => negb (f =? fn)) l) g = count_occ Nat.eq_dec l g.
Proof.
  intros Hne. induction l as [|f l IH]; simpl; [reflexivity|].
  destruct (f =? fn) eqn:E; simpl.
  - apply Nat.eqb_eq in E. subst f.
    destruct (Nat.eq_dec fn g); [congruence|exact IH].
  - destruct (Nat.eq_dec f g); now rewrite IH.
Qed.

Lemma filter_absent (fn : Callback.Listener) (l : list Callback.Listener) :
  ~ In fn l -> filter (fun f => negb (f =? fn)) l = l.
Proof.
  induction l as [|f l IH]; simpl; [reflexivity|]. intros H.
  destruct (f =? fn) eqn:E.
  - apply Nat.eqb_eq in E. destruct H. now left.
  - simpl. rewrite IH; [reflexivity|]. intros Hin. apply H. now right.
Qed.

(** X2. [remove(fn)] touches no other listener: every other listener is invoked
    as often as before; removing a listener that is not registered changes
    nothing; and a second [remove(fn)] changes nothing. *)
Theorem Callback_remove_only_fn :
  forall (T : Type) (c : Callback.t) (fn : Callback.Listener) (event : T),
    (forall g, g <> fn ->
       Callback.invocations g (Callback.fire event (Callback.remove fn c))
       = Callback.invocations g (Callback.fire event c))
    /\ (~ In fn (Callback.callbacks c) -> Callback.remove fn c = c)
    /\ Callback.remove fn (Callback.remove fn c) = Callback.remove fn c.
Proof.
  intros T [l] fn event. unfold Callback.remove; cbn [Callback.callbacks].
  split; [|split].
  - intros g Hne. rewrite !invocations_fire_count. now apply filter_other.
  - intros H. now rewrite filter_absent.
  - f_equal. apply filter_absent. intros H. apply filter_In in H.
    destruct H as [_ H]. now rewrite Nat.eqb_refl in H.
Qed.

Lemma Callback_remove_only_fn_witness :
  Callback.remove 7%nat (Callback.registered [1; 2]%nat) = Callback.registered [1; 2]%nat.
Proof.
  apply (proj1 (proj2 (@Callback_remove_only_fn nat (Callback.registered [1; 2]%nat)
                         7%nat 0%nat))).
  vm_compute. intuition discriminate.
Defined.

(** X3. A component that mounts with [useCallback], lets other listeners
    register meanwhile, and unmounts leaves the channel as it found it plus
    those other listeners, in their order, provided its listener was not
    registered by anyone else; if it was, the unmount removes those
    registrations too. *)
Theorem useCallback_unmount :
  forall (fn : Callback.Listener) (c : Callback.t) (others : list Callback.Listener),
    let mounted := fst (Callback.useCallback c fn) in
    let cleanup := snd (Callback.useCallback c fn) in
    let c' := cleanup (fold_left (fun c g => Callback.add g c) others mounted) in
    Callback.callbacks c'
    = filter (fun f => negb (f =? fn)) (Callback.callbacks c ++ others)
    /\ (~ In fn (Callback.callbacks c) -> ~ In fn others ->
        Callback.callbacks c' = Callback.callbacks c ++ others).
Proof.
  intros fn c others mounted cleanup c'. subst mounted cleanup c'.
  unfold Callback.useCallback; cbn [fst snd].
  unfold Callback.remove; cbn [Callback.callbacks].
  rewrite callbacks_fold_add. cbn [Callback.add Callback.callbacks].
  assert (H : filter (fun f => negb (f =? fn)) ((Callback.callbacks c ++ [fn]) ++ others)
              = filter (fun f => negb (f =? fn)) (Callback.callbacks c ++ others)).
  { rewrite !filter_app. simpl. rewrite Nat.eqb_refl. simpl. now rewrite app_nil_r. }
  rewrite H. split; [reflexivity|].
  intros Hc Ho. apply filter_absent. intros Hin. apply in_app_or in Hin. tauto.
Qed.

Lemma useCallback_unmount_witness :
  Callback.callbacks
    (snd (Callback.useCallback (Callback.registered [1; 2]%nat) 7%nat)
       (fold_left (fun c g => Callback.add g c) [3]%nat
          (fst (Callback.useCallback (Callback.registered [1; 2]%nat) 7%nat))))
  = Callback.callbacks (Callback.registered [1; 2]%nat) ++ [3]%nat.
Proof.
  apply (proj2 (useCallback_unmount 7%nat (Callback.registered [1; 2]%nat) [3]%nat));
    vm_compute; intuition discriminate.
Defined.

(** ** The controller *)

Section Facts.

Context {FloorplanModel FloorplanDto : Type}.
Context {api : FloorplanAPI FloorplanModel FloorplanDto}.
Variable wait : nat.

Local Abbreviation Controller := (Controller FloorplanModel FloorplanDto).

Ltac split_cases :=
  repeat match goal with
         | |- context [match ?x with _ => _ end] => destruct x eqn:?
         end.

(** Projections of assignments. *)
Ltac fields :=
  cbn [floorplan canvasElement mode activeWall activeCorner
       _activeItemIndex onModeChange onModelChange emitChanges_timeout
       originX originY targetX targetY lastNode mouseDown mouseMoved mouseX
       mouseY lastX lastY lastRawX lastRawY timers nextTimer effects
       set_floorplan set_mode set_activeWall set_activeCorner
       set__activeItemIndex set_onModeChange set_onModelChange
       set_emitChanges_timeout set_originX set_originY set_targetX
       set_targetY set_lastNode set_mouseDown set_mouseMoved set_mouseX
       set_mouseY set_lastX set_lastY set_lastRawX set_lastRawY set_timers
       set_nextTimer set_effects onFloorplan perform draw].

Ltac fields_in H :=
  cbn [floorplan canvasElement mode activeWall activeCorner
       _activeItemIndex onModeChange onModelChange emitChanges_timeout
       originX originY targetX targetY lastNode mouseDown mouseMoved mouseX
       mouseY lastX lastY lastRawX lastRawY timers nextTimer effects
       set_floorplan set_mode set_activeWall set_activeCorner
       set__activeItemIndex set_onModeChange set_onModelChange
       set_emitChanges_timeout set_originX set_originY set_targetX
       set_targetY set_lastNode set_mouseDown set_mouseMoved set_mouseX
       set_mouseY set_lastX set_lastY set_lastRawX set_lastRawY set_timers
       set_nextTimer set_effects onFloorplan perform draw] in H.

(** *** Which fields an operation assigns *)

Lemma set_activeItem_shape (o : option Item) (s : Controller) :
  exists fp,
    set_activeItem o s
    = set__activeItemIndex
        (match o with Some i => indexOf i (getItems fp) | None => None end)
        (set_floorplan fp s).
Proof.
  destruct s; unfold set_activeItem, onFloorplan; cbv zeta.
  split_cases; eexists; reflexivity.
Qed.

Lemma emitChanges_shape (s : Controller) :
  exists h n t,
    emitChanges wait s = set_emitChanges_timeout h (set_nextTimer n (set_timers t s)).
Proof.
  destruct s; unfold emitChanges, setTimeout, clearTimeout.
  split_cases; do 3 eexists; reflexivity.
Qed.

Lemma checkWallDuplicates_shape (s : Controller) :
  exists fp, checkWallDuplicates s = set_floorplan fp s.
Proof.
  unfold checkWallDuplicates.
  generalize (duplicates (floorplan s) (getWalls (floorplan s))).
  intros l; revert s; induction l as [|w l IH]; intros s; simpl.
  - exists (floorplan s). destruct s; reflexivity.
  - destruct (IH (onFloorplan (Wall_remove w) s)) as [fp ->]. now exists fp.
Qed.

Lemma updateTarget_shape (s : Controller) :
  exists tx ty, updateTarget s = set_targetY ty (set_targetX tx s).
Proof. destruct s; unfold updateTarget. split_cases; do 2 eexists; reflexivity. Qed.

Ltac shapes :=
  repeat match goal with
         | |- context [set_activeItem ?o ?x] =>
             let H := fresh in
             destruct (set_activeItem_shape o x) as (? & H); rewrite H; clear H
         | |- context [emitChanges ?w ?x] =>
             let H := fresh in
             destruct (emitChanges_shape x) as (? & ? & ? & H); rewrite H; clear H
         | |- context [checkWallDuplicates ?x] =>
             let H := fresh in
             destruct (checkWallDuplicates_shape x) as (? & H); rewrite H; clear H
         | |- context [updateTarget ?x] =>
             let H := fresh in
             destruct (updateTarget_shape x) as (? & ? & H); rewrite H; clear H
         end.

(** *** The draw target *)

(** C3. In DRAW mode with a last-placed corner, [updateTarget] sets each
    coordinate of the target on its own: the corner's coordinate when the
    pointer is less than 25 away from it on that axis, the pointer's
    coordinate otherwise.  In another mode, or with no last-placed corner,
    the target is the pointer position. *)
Theorem updateTarget_snaps :
  forall s : Controller,
    let s' := updateTarget s in
    (forall n, mode s = DRAW -> lastNode s = Some n ->
       let nx := Corner_x (floorplan s) n in
       let ny := Corner_y (floorplan s) n in
       (Qabs (mouseX s - nx) < 25 -> targetX s' = nx)
       /\ (~ Qabs (mouseX s - nx) < 25 -> targetX s' = mouseX s)
       /\ (Qabs (mouseY s - ny) < 25 -> targetY s' = ny)
       /\ (~ Qabs (mouseY s - ny) < 25 -> targetY s' = mouseY s))
    /\ (mode s <> DRAW \/ lastNode s = None ->
        targetX s' = mouseX s /\ targetY s' = mouseY s).
Proof.
  intros s s'. subst s'. unfold updateTarget, Qltb, snapTolerance. split.
  - intros n Hm Hn. rewrite Hm, Hn. cbv zeta.
    destruct (Qlt_le_dec (Qabs (mouseX s - Corner_x (floorplan s) n)) 25) as [Hx|Hx];
      cbn [mouseY floorplan set_targetX];
      destruct (Qlt_le_dec (Qabs (mouseY s - Corner_y (floorplan s) n)) 25) as [Hy|Hy];
      cbn [targetX targetY set_targetX set_targetY];
      repeat split; intros H; try reflexivity;
      try (exfalso; apply H; assumption);
      (exfalso; eapply Qlt_not_le; [exact H | assumption]).
  - intros [H|H].
    + destruct (mode s); try (exfalso; apply H; reflexivity); split; reflexivity.
    + rewrite H. destruct (mode s); split; reflexivity.
Qed.

(** *** Coordinates *)

Lemma mouse_hover s :
  mouseX (mousemove_hover s) = mouseX s /\ mouseY (mousemove_hover s) = mouseY s.
Proof.
  unfold mousemove_hover. cbv zeta. split_cases; shapes; split; reflexivity.
Qed.

Lemma mouse_drag o s :
  mouseX (mousemove_drag wait o s) = mouseX s
  /\ mouseY (mousemove_drag wait o s) = mouseY s.
Proof.
  unfold mousemove_drag. cbv zeta. split_cases; shapes; split; reflexivity.
Qed.

Lemma mouse_mousemove event s :
  mouseX (mousemove wait event s)
  = (clientX event - left (canvasElement s)) * cmPerPixel + originX s * cmPerPixel
  /\ mouseY (mousemove wait event s)
     = (clientY event - top (canvasElement s)) * cmPerPixel + originY s * cmPerPixel.
Proof.
  unfold mousemove. cbv zeta.
  repeat match goal with
         | |- context [if ?c then _ else _] => destruct c
         end;
    rewrite ?(proj1 (mouse_drag _ _)), ?(proj2 (mouse_drag _ _));
    unfold mousemove_pan; cbn [mouseX mouseY draw perform set_effects set_lastRawX
                               set_lastRawY set_originX set_originY];
    rewrite ?(proj1 (mouse_hover _)), ?(proj2 (mouse_hover _));
    shapes; split; reflexivity.
Qed.

Lemma cmPerPixel_inverse (p o : Q) :
  ((p * cmPerPixel + o * cmPerPixel) - o * cmPerPixel) * pixelsPerCm == p.
Proof. unfold pixelsPerCm, cmPerPixel, cmPerFoot, pixelsPerFoot. field. Qed.

Lemma pixelsPerCm_inverse (x o : Q) :
  (x - o * cmPerPixel) * pixelsPerCm * cmPerPixel + o * cmPerPixel == x.
Proof. unfold pixelsPerCm, cmPerPixel, cmPerFoot, pixelsPerFoot. field. Qed.

(** C8. A model coordinate converted to canvas pixels by [convertX] and
    [convertY] and handed back to the pointer handler as the position in the
    canvas is read again as the coordinate it came from, whatever the view
    origin is (equality of rationals). *)
Theorem convert_round_trip :
  forall (s : Controller) (event : MouseEvent) (x y : Q),
    clientX event - left (canvasElement s) == convertX s x ->
    clientY event - top (canvasElement s) == convertY s y ->
    mouseX (mousemove wait event s) == x /\ mouseY (mousemove wait event s) == y.
Proof.
  intros s event x y Hx Hy.
  destruct (mouse_mousemove event s) as [-> ->].
  rewrite Hx, Hy. unfold convertX, convertY.
  split; apply pixelsPerCm_inverse.
Qed.

(** *** Changing the mode *)

Lemma updateTarget_unchained (s : Controller) :
  lastNode s = None ->
  updateTarget s = set_targetY (mouseY s) (set_targetX (mouseX s) s).
Proof. intros H. unfold updateTarget. rewrite H. now destruct (mode s). Qed.

Lemma setMode_shape (newMode : FloorplanMode) (s : Controller) :
  exists fp,
    setMode newMode s
    = perform (map (fun fn => ModeListener fn newMode) (Callback.callbacks (onModeChange s)))
        (set_targetY (mouseY s) (set_targetX (mouseX s)
          (set_mode newMode (set_floorplan (setSelectedItem None false fp)
            (set_lastNode None (set__activeItemIndex None
              (set_activeCorner None (set_activeWall None s)))))))).
Proof.
  unfold setMode; cbv zeta.
  destruct (set_activeItem_shape None (set_activeCorner None (set_activeWall None s)))
    as (fp & ->).
  exists fp. rewrite updateTarget_unchained by reflexivity.
  unfold Callback.fire. rewrite map_map. destruct s; reflexivity.
Qed.

Context {selectionLaws : SelectionLaws api}.

(** C2. Whatever the mode asked for, [setMode] ends with no active corner,
    wall or item and no last-placed corner, with the model's selection
    cleared and the controller in the new mode, with the draw target
    recomputed for it (the pointer position, as no corner is left to snap
    to), and after one firing of the mode-changed channel: each registered
    listener is invoked once, with the new mode, and nothing else happens
    to the view or the listeners.  It is a total function. *)
Theorem setMode_clears :
  forall (newMode : FloorplanMode) (s : Controller),
    let s' := setMode newMode s in
    activeCorner s' = None /\ activeWall s' = None /\ activeItem s' = Null
    /\ lastNode s' = None
    /\ getSelectedItem (floorplan s') = None
    /\ mode s' = newMode
    /\ s' = updateTarget s'
    /\ targetX s' = mouseX s /\ targetY s' = mouseY s
    /\ effects s'
       = effects s ++ map (fun call => ModeListener (fst call) (snd call))
                          (Callback.fire newMode (onModeChange s)).
Proof.
  intros newMode s s'. subst s'.
  destruct (setMode_shape newMode s) as (fp & ->).
  unfold activeItem. fields.
  repeat split; try reflexivity.
  - apply setSelectedItem_clear.
  - rewrite updateTarget_unchained by reflexivity. destruct s; reflexivity.
  - unfold Callback.fire. now rewrite map_map.
Qed.

(** *** Deleting *)

Lemma modelChanges_perform_mode (l : list Callback.Listener) (m : FloorplanMode)
  (s : Controller) :
  modelChanges (perform (map (fun fn => ModeListener fn m) l) s) = modelChanges s.
Proof.
  unfold modelChanges; fields. rewrite flat_map_app.
  replace (flat_map _ (map _ l)) with (@nil (Callback.Listener * ModelChange.t FloorplanDto)).
  - apply app_nil_r.
  - induction l; [reflexivity|assumption].
Qed.

Lemma modelChanges_draw (s : Controller) : modelChanges (draw s) = modelChanges s.
Proof.
  unfold modelChanges, draw, perform; cbn [effects set_effects].
  rewrite flat_map_app. apply app_nil_r.
Qed.

Lemma modelChanges_setMode (newMode : FloorplanMode) (s : Controller) :
  modelChanges (setMode newMode s) = modelChanges s.
Proof.
  destruct (setMode_shape newMode s) as (fp & ->).
  rewrite modelChanges_perform_mode. reflexivity.
Qed.

Lemma emitChanges_scheduled (s0 s : Controller) :
  nextTimer s = nextTimer s0 -> modelChanges s = modelChanges s0 ->
  scheduled wait s0 (draw (emitChanges wait s)).
Proof.
  intros Hn Hm. unfold scheduled, emitChanges, setTimeout, clearTimeout, modelChanges.
  destruct (emitChanges_timeout s); fields; rewrite Hn;
    (split; [reflexivity|split; [apply in_or_app; right; left; reflexivity|]]);
    rewrite flat_map_app, app_nil_r; exact Hm.
Qed.

Lemma emitChanges_frame (s : Controller) :
  floorplan (emitChanges wait s) = floorplan s /\ mode (emitChanges wait s) = mode s.
Proof. shapes. split; reflexivity. Qed.

Lemma set_activeItem_None_inactive (s : Controller) :
  (forall item, activeItem s <> Obj item) ->
  set_activeItem None s = set__activeItemIndex None s.
Proof.
  intros H. unfold set_activeItem; cbv zeta.
  destruct (activeItem s) as [item| |]; [destruct (H item); reflexivity| |]; reflexivity.
Qed.

Lemma setMode_inactive (newMode : FloorplanMode) (s : Controller) :
  (forall item, activeItem s <> Obj item) ->
  setMode newMode s
  = perform (map (fun fn => ModeListener fn newMode) (Callback.callbacks (onModeChange s)))
      (set_targetY (mouseY s) (set_targetX (mouseX s)
        (set_mode newMode (set_floorplan (setSelectedItem None false (floorplan s))
          (set_lastNode None (set__activeItemIndex None
            (set_activeCorner None (set_activeWall None s)))))))).
Proof.
  intros H. unfold setMode; cbv zeta.
  rewrite set_activeItem_None_inactive by exact H.
  rewrite updateTarget_unchained by reflexivity.
  unfold Callback.fire. rewrite map_map. reflexivity.
Qed.

Context {removalLaws : RemovalLaws api}.

(** C7. A press in DELETE mode removes the active corner with the walls
    connected to it; with no active corner, the active wall; with neither,
    the active item; each of the three schedules a debounced change
    notification and stays in DELETE mode.  With nothing active, nothing is
    removed, nothing is scheduled, and the mode becomes MOVE. *)
Theorem mousedown_delete :
  forall (event : MouseEvent) (s : Controller),
    mode s = DELETE ->
    let s' := mousedown wait event s in
    let fp := floorplan s in
    (forall corner, activeCorner s = Some corner ->
       floorplan s' = Corner_removeAll corner fp
       /\ getCorners (floorplan s') = filter (fun c => negb (c =? corner)) (getCorners fp)
       /\ getWalls (floorplan s') = filter (fun w => negb (connected fp corner w)) (getWalls fp)
       /\ scheduled wait s s' /\ mode s' = DELETE)
    /\ (forall wall, activeCorner s = None -> activeWall s = Some wall ->
          floorplan s' = Wall_remove wall fp
          /\ getWalls (floorplan s') = filter (fun w => negb (w =? wall)) (getWalls fp)
          /\ scheduled wait s s' /\ mode s' = DELETE)
    /\ (forall item, activeCorner s = None -> activeWall s = None ->
          activeItem s = Obj item ->
          floorplan s' = Item_remove item fp
          /\ getItems (floorplan s') = filter (fun i => negb (i =? item)) (getItems fp)
          /\ scheduled wait s s' /\ mode s' = DELETE)
    /\ (activeCorner s = None -> activeWall s = None ->
        (forall item, activeItem s <> Obj item) ->
        mode s' = MOVE
        /\ getCorners (floorplan s') = getCorners fp
        /\ getWalls (floorplan s') = getWalls fp
        /\ getItems (floorplan s') = getItems fp
        /\ timers s' = timers s
        /\ modelChanges s' = modelChanges s).
Proof.
  intros event s Hmode s' fp. subst s' fp.
  unfold mousedown; cbv zeta; fields. rewrite Hmode; cbn [FloorplanMode_eqb].
  set (s0 := set_lastRawY _ _).
  assert (Hitem : activeItem s0 = activeItem s) by reflexivity.
  split; [|split; [|split]].
  - intros corner ->.
    destruct (emitChanges_frame (onFloorplan (Corner_removeAll corner) s0)) as [Hf Hm].
    fields. rewrite Hf, Hm. fields.
    refine (conj eq_refl (conj _ (conj _ (conj _ Hmode)))).
    + apply Corner_removeAll_getCorners.
    + apply Corner_removeAll_getWalls.
    + apply emitChanges_scheduled; reflexivity.
  - intros wall -> ->.
    destruct (emitChanges_frame (onFloorplan (Wall_remove wall) s0)) as [Hf Hm].
    fields. rewrite Hf, Hm. fields.
    refine (conj eq_refl (conj _ (conj _ Hmode))).
    + apply Wall_remove_getWalls.
    + apply emitChanges_scheduled; reflexivity.
  - intros item -> -> Hi. rewrite Hitem, Hi.
    destruct (emitChanges_frame (onFloorplan (Item_remove item) s0)) as [Hf Hm].
    fields. rewrite Hf, Hm. fields.
    refine (conj eq_refl (conj _ (conj _ Hmode))).
    + apply Item_remove_getItems.
    + apply emitChanges_scheduled; reflexivity.
  - intros -> -> Hi.
    replace (match activeItem s0 with
             | Obj item => emitChanges wait (onFloorplan (Item_remove item) s0)
             | _ => setMode MOVE s0
             end) with (setMode MOVE s0)
      by (rewrite Hitem; destruct (activeItem s) as [item| |];
          [destruct (Hi item)|..]; reflexivity).
    refine (conj _ (conj _ (conj _ (conj _ (conj _ _))))).
    6: rewrite modelChanges_draw, modelChanges_setMode; reflexivity.
    all: rewrite setMode_inactive by (rewrite Hitem; exact Hi).
    + reflexivity.
    + fields. apply setSelectedItem_getCorners.
    + fields. apply setSelectedItem_getWalls.
    + fields. apply setSelectedItem_getItems.
    + reflexivity.
Qed.

(** *** Hit-testing on pointer moves *)

Lemma indexOf_nth_error (x : nat) (l : list nat) (k : nat) :
  indexOf x l = Some k -> nth_error l k = Some x.
Proof.
  revert k; induction l as [|y l IH]; intros k; simpl; [discriminate|].
  destruct (y =? x) eqn:E.
  - intros [= <-]. apply Nat.eqb_eq in E. now subst.
  - destruct (indexOf x l) as [n|]; [|discriminate].
    intros [= <-]. simpl. now apply IH.
Qed.

Lemma indexOf_In (x : nat) (l : list nat) :
  In x l -> exists k, indexOf x l = Some k.
Proof.
  induction l as [|y l IH]; simpl; [intros []|].
  intros H. destruct (y =? x) eqn:E; [now exists 0%nat|].
  destruct H as [->|H]; [now rewrite Nat.eqb_refl in E|].
  destruct (IH H) as [k ->]. now exists (S k).
Qed.

Lemma option_eqb_eq (a b : option nat) : option_eqb a b = true <-> a = b.
Proof.
  destruct a as [x|], b as [y|]; simpl; split; try discriminate; try reflexivity.
  - intros H. apply Nat.eqb_eq in H. now subst.
  - intros [= ->]. apply Nat.eqb_refl.
Qed.

Lemma option_eqb_neq (a b : option nat) : option_eqb a b = false <-> a <> b.
Proof.
  rewrite <- option_eqb_eq. destruct (option_eqb a b); split; congruence.
Qed.

Context {hoverLaws : HoverLaws api}.

Lemma set_activeItem_hover (o : option Item) (s : Controller) :
  exists fp,
    set_activeItem o s
    = set__activeItemIndex
        (match o with Some i => indexOf i (getItems (floorplan s)) | None => None end)
        (set_floorplan fp s)
    /\ getItems fp = getItems (floorplan s)
    /\ (o = None ->
        forall x y,
          overlappedCorner fp x y = overlappedCorner (floorplan s) x y
          /\ overlappedWall fp x y = overlappedWall (floorplan s) x y).
Proof.
  destruct s; unfold set_activeItem, onFloorplan; cbv zeta.
  destruct (negb (strictEq o (activeItem _))); [destruct (activeItem _) as [a| |]|];
    destruct o as [i|]; fields.
  all: eexists; split;
    [ rewrite ?startActive_getItems, ?endActive_getItems; reflexivity
    | rewrite ?startActive_getItems, ?endActive_getItems; split;
      [ reflexivity
      | intros H x y; try discriminate H;
        rewrite ?endActive_overlappedCorner, ?endActive_overlappedWall; split; reflexivity ] ].
Qed.

Lemma strictEq_None_Null (r : Ref) : strictEq None r = true <-> r = Null.
Proof. destruct r; simpl; split; congruence. Qed.

Lemma hover_spec (s : Controller) :
  let s' := mousemove_hover s in
  let hoverItem := overlappedItem (floorplan s) (mouseX s) (mouseY s) in
  let hoverCorner := overlappedCorner (floorplan s) (mouseX s) (mouseY s) in
  let hoverWall := overlappedWall (floorplan s) (mouseX s) (mouseY s) in
  (forall item, hoverItem = Some item ->
     activeItem s' = Obj item /\ activeCorner s' = None /\ activeWall s' = None)
  /\ (forall corner, hoverItem = None -> hoverCorner = Some corner ->
        activeItem s' = Null /\ activeCorner s' = Some corner /\ activeWall s' = None)
  /\ (hoverItem = None -> hoverCorner = None ->
        activeItem s' = Null /\ activeCorner s' = None /\ activeWall s' = hoverWall)
  /\ (effects s' = effects s
      \/ (effects s' = effects s ++ [ViewDraw] /\ selection s' <> selection s)).
Proof.
  intros s' hoverItem hoverCorner hoverWall. subst s' hoverItem hoverCorner hoverWall.
  unfold mousemove_hover; cbv zeta.
  destruct (overlappedItem (floorplan s) (mouseX s) (mouseY s)) as [i|] eqn:Hi.
  - destruct (set_activeItem_hover (Some i) s) as (fp & E & Hitems & _). rewrite E.
    destruct (indexOf_In i (getItems (floorplan s))) as [k Hk];
      [eapply overlappedItem_listed; exact Hi|].
    assert (Hnth : nth_error (getItems (floorplan s)) k = Some i)
      by exact (indexOf_nth_error _ _ Hk).
    rewrite Hk. cbn [fst snd].
    split; [|split; [|split]]; try discriminate.
    + intros item [= <-].
      destruct (if negb _ then true else false); unfold activeItem; fields;
        rewrite Hitems, Hnth; repeat split.
    + destruct (strictEq (Some i) (activeItem s)) eqn:Hs; cbn [negb]; fields;
        [left; reflexivity | right; split; [reflexivity|]].
      unfold selection; fields. intros [= _ _ Hidx].
      unfold activeItem in Hs. rewrite <- Hidx, Hnth in Hs. simpl in Hs.
      now rewrite Nat.eqb_refl in Hs.
  - destruct (set_activeItem_hover None s) as (fp & E & Hitems & Hhits). rewrite E.
    fields.
    destruct (Hhits eq_refl (mouseX s) (mouseY s)) as [-> ->].
    set (hc := overlappedCorner (floorplan s) (mouseX s) (mouseY s)).
    set (hw := overlappedWall (floorplan s) (mouseX s) (mouseY s)).
    assert (Hdraw0 : _activeItemIndex s = None ->
                     (if negb (strictEq None (activeItem s)) then true else false) = false).
    { intros Hr. unfold activeItem. now rewrite Hr. }
    set (d1 := if negb (strictEq None (activeItem s)) then true else false) in *.
    destruct (option_eqb hc (activeCorner s)) eqn:Ec;
      [apply option_eqb_eq in Ec | apply option_eqb_neq in Ec];
      cbn [negb fst snd]; fields; try rewrite <- Ec;
      (destruct hc as [c|]; fields;
       [| destruct (option_eqb hw (activeWall s)) eqn:Ew;
          [apply option_eqb_eq in Ew | apply option_eqb_neq in Ew];
          cbn [negb fst snd]; fields ]).
    all: (split; [discriminate|split; [|split]]).
    all: try (intros corner _ [= <-]); try (intros _ [=]); try (intros _ _).
    all: try (destruct d1 eqn:Hd1); unfold activeItem, selection; cbn [fst snd]; fields.
    all: try (repeat split; congruence).
    all: try (left; reflexivity).
    all: right; split; [reflexivity|]; intros Heq;
      first [ congruence
            | apply (f_equal snd) in Heq; cbn [snd] in Heq;
              discriminate (Hdraw0 (eq_sym Heq)) ].
Qed.


Lemma hover_frame (s : Controller) :
  mouseDown (mousemove_hover s) = mouseDown s /\ mode (mousemove_hover s) = mode s.
Proof.
  unfold mousemove_hover. cbv zeta. split_cases; shapes; split; reflexivity.
Qed.

Lemma mousemove_idle (event : MouseEvent) (s : Controller) :
  mode s <> DRAW -> mouseDown s = false ->
  mousemove wait event s
  = mousemove_hover
      (set_mouseY ((clientY event - top (canvasElement s)) * cmPerPixel
                   + originY s * cmPerPixel)
         (set_mouseX ((clientX event - left (canvasElement s)) * cmPerPixel
                      + originX s * cmPerPixel)
            (set_mouseMoved true s))).
Proof.
  intros Hmode Hdown. unfold mousemove; cbv zeta; fields.
  assert (Hd : FloorplanMode_eqb (mode s) DRAW = false)
    by (destruct (mode s); [reflexivity | destruct Hmode | ]; reflexivity).
  rewrite Hd, Hdown, Bool.andb_false_r. cbn [orb negb andb]. fields.
  rewrite Hd, Hdown. cbn [orb negb andb].
  rewrite (proj1 (hover_frame _)); fields. rewrite Hdown. cbn [andb].
  rewrite (proj1 (hover_frame _)); fields. rewrite Hdown, Bool.andb_false_r.
  reflexivity.
Qed.

(** C1. On a pointer move outside DRAW mode with the button up, an item
    under the pointer becomes the active item and clears the active corner
    and wall; with no item, a corner under the pointer becomes the active
    corner and clears the active wall; a wall is active afterwards only when
    neither an item nor a corner is under the pointer, and it is the wall
    under the pointer.  At most one redraw is requested, and only when the
    stored hit result changed. *)
Theorem mousemove_hit_precedence :
  forall (event : MouseEvent) (s : Controller),
    mode s <> DRAW -> mouseDown s = false ->
    let s' := mousemove wait event s in
    let hoverItem := overlappedItem (floorplan s) (mouseX s') (mouseY s') in
    let hoverCorner := overlappedCorner (floorplan s) (mouseX s') (mouseY s') in
    let hoverWall := overlappedWall (floorplan s) (mouseX s') (mouseY s') in
    (forall item, hoverItem = Some item ->
       activeItem s' = Obj item /\ activeCorner s' = None /\ activeWall s' = None)
    /\ (forall corner, hoverItem = None -> hoverCorner = Some corner ->
          activeItem s' = Null /\ activeCorner s' = Some corner /\ activeWall s' = None)
    /\ (hoverItem = None -> hoverCorner = None ->
          activeItem s' = Null /\ activeCorner s' = None /\ activeWall s' = hoverWall)
    /\ (forall wall, activeWall s' = Some wall ->
          hoverItem = None /\ hoverCorner = None /\ hoverWall = Some wall)
    /\ (effects s' = effects s
        \/ (effects s' = effects s ++ [ViewDraw] /\ selection s' <> selection s)).
Proof.
  intros event s Hmode Hdown s'.
  destruct (mouse_mousemove event s) as [Hx Hy]. fold s' in Hx, Hy. rewrite Hx, Hy.
  subst s'. rewrite (@mousemove_idle event s Hmode Hdown).
  set (s0 := set_mouseY _ _).
  pose proof (hover_spec s0) as H. cbv zeta in H.
  change (floorplan s0) with (floorplan s) in H.
  change (mouseX s0) with ((clientX event - left (canvasElement s)) * cmPerPixel
                           + originX s * cmPerPixel) in H.
  change (mouseY s0) with ((clientY event - top (canvasElement s)) * cmPerPixel
                           + originY s * cmPerPixel) in H.
  change (effects s0) with (effects s) in H.
  change (selection s0) with (selection s) in H.
  cbv zeta. destruct H as (H1 & H2 & H3 & H4).
  refine (conj H1 (conj H2 (conj H3 (conj _ H4)))).
  intros wall Hw.
  destruct (overlappedItem _ _ _) as [item|] eqn:Hi.
  - destruct (H1 item eq_refl) as (_ & _ & Hn). congruence.
  - destruct (overlappedCorner _ _ _) as [corner|] eqn:Hc.
    + destruct (H2 corner eq_refl eq_refl) as (_ & _ & Hn). congruence.
    + destruct (H3 eq_refl eq_refl) as (_ & _ & Hn). repeat split. congruence.
Qed.


(** *** Mutual exclusion of the active entities *)

Ltac shapes_setMode :=
  repeat match goal with
         | |- context [setMode ?m ?x] =>
             let H := fresh in
             destruct (setMode_shape m x) as (? & H); rewrite H; clear H
         end;
  shapes.

Lemma fireChanges_shape (s : Controller) :
  exists es, fireChanges s = set_effects es s.
Proof. unfold fireChanges, perform. eexists; reflexivity. Qed.

Lemma later_shape (s : Controller) :
  exists es, later s = set_effects es (set_emitChanges_timeout None s).
Proof. unfold later, fireChanges, perform. eexists; reflexivity. Qed.

Lemma selection_elapse (dt : nat) (s : Controller) :
  selection (elapse dt s) = selection s.
Proof.
  unfold elapse; cbv zeta.
  generalize (filter (fun t => remaining t <=? dt) (timers s)).
  match goal with |- forall l, selection (fold_left _ l ?x) = _ =>
    change (selection s) with (selection x); generalize x end.
  intros s0 l; revert s0; induction l as [|t l IH]; intros s0; simpl; [reflexivity|].
  rewrite IH. reflexivity.
Qed.

Lemma selection_pan (event : MouseEvent) (s : Controller) :
  selection (mousemove_pan event s) = selection s.
Proof. reflexivity. Qed.

Lemma selection_drag (o : option Item) (s : Controller) :
  selection (mousemove_drag wait o s) = selection s.
Proof. unfold mousemove_drag. cbv zeta. split_cases; shapes; reflexivity. Qed.

Lemma selection_updateTarget (s : Controller) :
  selection (draw (updateTarget s)) = selection s.
Proof. shapes. reflexivity. Qed.

Ltac plain c :=
  lazymatch c with
  | context [match _ with _ => _ end] => fail
  | _ => idtac
  end.

Ltac crunch :=
  repeat (cbn [fst snd negb]; fields;
          match goal with
          | |- context [match ?x with _ => _ end] => plain x; destruct x eqn:?
          end).

Lemma hover_exclusive (s : Controller) : exclusiveFields (mousemove_hover s).
Proof.
  unfold mousemove_hover; cbv zeta.
  destruct (overlappedItem _ _ _) as [i|].
  - destruct (set_activeItem_shape (Some i) s) as (fp & ->).
    unfold exclusiveFields, selection. crunch; exact I.
  - destruct (set_activeItem_shape None s) as (fp & ->).
    unfold exclusiveFields, selection. crunch; try exact I; congruence.
Qed.

Lemma mousemove_selection (event : MouseEvent) (s : Controller) :
  selection (mousemove wait event s) = selection s
  \/ exclusiveFields (mousemove wait event s).
Proof.
  unfold mousemove, exclusiveFields; cbv zeta.
  repeat match goal with
         | |- context [if ?c then _ else _] => destruct c
         end;
    rewrite ?selection_drag, ?selection_pan;
    first [ right; apply hover_exclusive
          | left; rewrite ?selection_updateTarget; reflexivity ].
Qed.

Lemma mousedown_selection (event : MouseEvent) (s : Controller) :
  selection (mousedown wait event s) = selection s
  \/ exclusiveFields (mousedown wait event s).
Proof.
  unfold mousedown; cbv zeta.
  split_cases; shapes_setMode; first [left; reflexivity | right; exact I].
Qed.

Lemma mouseup_selection (s : Controller) :
  selection (mouseup wait s) = selection s \/ exclusiveFields (mouseup wait s).
Proof.
  unfold mouseup; cbv zeta.
  split_cases; shapes_setMode; first [left; reflexivity | right; exact I].
Qed.

Lemma handle_selection (e : Event) (s : Controller) :
  selection (handle wait e s) = selection s \/ exclusiveFields (handle wait e s).
Proof.
  destruct e; cbn [handle].
  - apply mousedown_selection.
  - apply mousemove_selection.
  - apply mouseup_selection.
  - unfold mouseleave; cbv zeta. shapes. right; exact I.
  - unfold escapeKey. destruct (keyCode =? 27); [|left; reflexivity].
    shapes_setMode. right; exact I.
  - unfold reset, resetOrigin, resizeView; cbv zeta. shapes_setMode. right; exact I.
  - shapes_setMode. right; exact I.
  - left; reflexivity.
  - left; reflexivity.
  - left; apply selection_elapse.
  - left; reflexivity.
Qed.

Lemma exclusiveFields_exclusive (s : Controller) : exclusiveFields s -> exclusive s.
Proof.
  unfold exclusiveFields, exclusive, selection, activeItem.
  destruct (activeCorner s), (activeWall s), (_activeItemIndex s); tauto.
Qed.

Lemma exclusiveFields_setsOneOnly (s s' : Controller) :
  exclusiveFields s' -> setsOneOnly s s'.
Proof.
  unfold exclusiveFields, setsOneOnly, selection.
  destruct (activeCorner s'), (activeWall s'), (_activeItemIndex s');
    intros H; try destruct H; repeat split; try discriminate; reflexivity.
Qed.

Lemma selection_setsOneOnly (s s' : Controller) :
  selection s' = selection s -> setsOneOnly s s'.
Proof.
  unfold setsOneOnly, selection. intros [= H1 H2 H3].
  repeat split; congruence.
Qed.

Lemma run_snoc (es : list Event) (e : Event) (s : Controller) :
  run wait (es ++ [e]) s = handle wait e (run wait es s).
Proof. unfold run. now rewrite fold_left_app. Qed.

Lemma create_exclusive (canvas : DOMRect) (fp : FloorplanModel) :
  exclusiveFields (create canvas fp).
Proof. unfold create. shapes_setMode. exact I. Qed.

Lemma handle_exclusive (e : Event) (s : Controller) :
  exclusiveFields s -> exclusiveFields (handle wait e s).
Proof.
  intros H. destruct (handle_selection e s) as [Hs|Hs]; [|exact Hs].
  unfold exclusiveFields in *. now rewrite Hs.
Qed.

Lemma run_exclusive (es : list Event) (s : Controller) :
  exclusiveFields s -> exclusiveFields (run wait es s).
Proof.
  revert s; induction es as [|e es IH]; intros s H; [exact H|].
  apply IH, handle_exclusive, H.
Qed.

(** C5. After the constructor and after any history of controller
    operations and outside changes of the model, at most one of active
    corner, active wall and active item is set; every operation keeps the
    stored hit results mutually exclusive, and when it sets one of them anew
    the other two are cleared by the end of it. *)
Theorem active_entities_exclusive :
  (forall (canvas : DOMRect) (fp : FloorplanModel) (es : list Event),
     exclusive (run wait es (create canvas fp)))
  /\ (forall (e : Event) (s : Controller),
        exclusiveFields s ->
        exclusiveFields (handle wait e s) /\ exclusive (handle wait e s))
  /\ (forall (e : Event) (s : Controller), setsOneOnly s (handle wait e s)).
Proof.
  split; [|split].
  - intros canvas fp es.
    apply exclusiveFields_exclusive, run_exclusive, create_exclusive.
  - intros e s H. pose proof (@handle_exclusive e s H) as H'.
    split; [exact H'|apply exclusiveFields_exclusive, H'].
  - intros e s. destruct (handle_selection e s) as [H|H].
    + apply selection_setsOneOnly, H.
    + apply exclusiveFields_setsOneOnly, H.
Qed.


(** *** Duplicate walls *)

Lemma filter_filter_negb_or (A : Type) (p q : A -> bool) (l : list A) :
  filter (fun v => negb (q v)) (filter (fun v => negb (p v)) l)
  = filter (fun v => negb (p v || q v)) l.
Proof.
  induction l as [|a l IH]; simpl; [reflexivity|].
  destruct (p a); simpl; [exact IH|]. destruct (q a); simpl; now rewrite IH.
Qed.

Lemma getWalls_remove_all (d : list Wall) (s : Controller) :
  getWalls (floorplan (fold_left (fun s wall => onFloorplan (Wall_remove wall) s) d s))
  = filter (fun v => negb (existsb (Nat.eqb v) d)) (getWalls (floorplan s)).
Proof.
  revert s; induction d as [|w d IH]; intros s; simpl.
  - induction (getWalls (floorplan s)) as [|a l IHl]; simpl; [reflexivity|].
    now rewrite <- IHl.
  - rewrite IH. unfold onFloorplan; fields. rewrite Wall_remove_getWalls.
    apply filter_filter_negb_or.
Qed.

Lemma In_duplicates (fp : FloorplanModel) (walls : list Wall) (wall : Wall) :
  In wall (duplicates fp walls)
  <-> exists i k earlier,
        (i < k)%nat /\ nth_error walls i = Some earlier /\ nth_error walls k = Some wall
        /\ isDuplicate fp earlier wall = true.
Proof.
  induction walls as [|a rest IH]; simpl.
  - split; [intros []|]. intros (i & k & v & _ & H & _). destruct i; discriminate.
  - rewrite in_app_iff, filter_In, IH. split.
    + intros [[Hin Hd]|(i & k & v & Hlt & Hi & Hk & Hd)].
      * destruct (In_nth_error _ _ Hin) as [k Hk].
        exists 0%nat, (S k), a. repeat split; try assumption. lia.
      * exists (S i), (S k), v. repeat split; try assumption. lia.
    + intros (i & k & v & Hlt & Hi & Hk & Hd).
      destruct k as [|k]; [lia|]. simpl in Hk.
      destruct i as [|i]; simpl in Hi.
      * injection Hi as ->. left. split; [eapply nth_error_In; eassumption|assumption].
      * right. exists i, k, v. repeat split; try assumption. lia.
Qed.

Lemma sameCorners_spec (fp : FloorplanModel) (a b : Wall) :
  sameCorners fp a b = true
  <-> (Wall_getStart fp a = Wall_getStart fp b /\ Wall_getEnd fp a = Wall_getEnd fp b)
      \/ (Wall_getStart fp a = Wall_getEnd fp b /\ Wall_getEnd fp a = Wall_getStart fp b).
Proof.
  unfold sameCorners.
  rewrite Bool.orb_true_iff, !Bool.andb_true_iff, !Nat.eqb_eq. reflexivity.
Qed.




Lemma isDuplicate_spec (fp : FloorplanModel) (a b : Wall) :
  isDuplicate fp a b = true <-> a <> b /\ sameCorners fp a b = true.
Proof.
  unfold isDuplicate. rewrite sameCorners_spec.
  rewrite Bool.andb_true_iff, Bool.negb_true_iff, Nat.eqb_neq,
    Bool.orb_true_iff, !Bool.andb_true_iff, !Nat.eqb_eq.
  intuition congruence.
Qed.


Lemma existsb_eqb_In (w : Wall) (d : list Wall) :
  existsb (Nat.eqb w) d = true <-> In w d.
Proof.
  rewrite existsb_exists. split.
  - intros (x & Hin & Hx). apply Nat.eqb_eq in Hx. now subst.
  - intros H. exists w. split; [assumption|apply Nat.eqb_refl].
Qed.

Lemma kept_iff (s : Controller) (w : Wall) :
  In w (getWalls (floorplan (checkWallDuplicates s)))
  <-> In w (getWalls (floorplan s))
      /\ ~ In w (duplicates (floorplan s) (getWalls (floorplan s))).
Proof.
  unfold checkWallDuplicates; cbv zeta. rewrite getWalls_remove_all, filter_In.
  rewrite Bool.negb_true_iff, <- Bool.not_true_iff_false, existsb_eqb_In. reflexivity.
Qed.






(** *** The debounced emitter *)

Lemma quiet_debounced (f : Controller -> Controller) (s : Controller) :
  quiet f -> debounced s -> debounced (f s).
Proof.
  intros Hq. destruct (Hq s) as [Ht Hh]. unfold debounced. now rewrite Ht, Hh.
Qed.

Lemma emitChanges_pending (s : Controller) :
  debounced s ->
  timers (emitChanges wait s) = [{| tid := nextTimer s; remaining := wait |}]
  /\ emitChanges_timeout (emitChanges wait s) = Some (nextTimer s).
Proof.
  unfold debounced, emitChanges, setTimeout, clearTimeout.
  destruct (emitChanges_timeout s) as [id|]; fields.
  - intros [ms ->]. simpl. rewrite Nat.eqb_refl. simpl. split; reflexivity.
  - intros ->. simpl. split; reflexivity.
Qed.

Lemma emitChanges_debounced (s : Controller) :
  debounced s -> debounced (emitChanges wait s).
Proof.
  intros H. destruct (@emitChanges_pending s H) as [Ht Hh].
  unfold debounced. rewrite Hh, Ht. eexists; reflexivity.
Qed.

Lemma modelChanges_later (s : Controller) :
  modelChanges (later s) = modelChanges s ++ Callback.fire (payload s) (onModelChange s).
Proof.
  unfold later, fireChanges, modelChanges, payload; fields.
  rewrite flat_map_app. f_equal.
  generalize (Callback.fire
                {| ModelChange.floorplane := exportFloorplan (floorplan s);
                   ModelChange.x := originX s; ModelChange.y := originY s |}
                (onModelChange s)).
  intros l; induction l as [|[fn ev] l IH]; simpl; [reflexivity|now rewrite IH].
Qed.

Lemma elapse_idle (dt : nat) (s : Controller) :
  timers s = [] -> elapse dt s = set_timers [] s.
Proof. intros H. unfold elapse. rewrite H. reflexivity. Qed.

Lemma elapse_pending (dt id ms : nat) (s : Controller) :
  timers s = [{| tid := id; remaining := ms |}] -> (dt < ms)%nat ->
  elapse dt s = set_timers [{| tid := id; remaining := ms - dt |}] s.
Proof.
  intros H Hlt. unfold elapse. rewrite H. simpl.
  replace (ms <=? dt) with false by (symmetry; apply Nat.leb_gt; exact Hlt).
  reflexivity.
Qed.

Lemma elapse_due (dt id ms : nat) (s : Controller) :
  timers s = [{| tid := id; remaining := ms |}] -> (ms <= dt)%nat ->
  elapse dt s = later (set_timers [] s).
Proof.
  intros H Hle. unfold elapse. rewrite H. simpl.
  replace (ms <=? dt) with true by (symmetry; apply Nat.leb_le; exact Hle).
  reflexivity.
Qed.

Lemma elapse_debounced (dt : nat) (s : Controller) :
  debounced s -> debounced (elapse dt s).
Proof.
  unfold debounced. destruct (emitChanges_timeout s) as [id|] eqn:E.
  - intros [ms H]. destruct (Nat.le_gt_cases ms dt) as [Hle|Hgt].
    + rewrite (@elapse_due dt id ms s H Hle). reflexivity.
    + rewrite (@elapse_pending dt id ms s H Hgt). fields. rewrite E. eexists; reflexivity.
  - intros H. rewrite (@elapse_idle dt s H). fields. now rewrite E.
Qed.

Ltac shapes_quiet :=
  repeat match goal with
         | |- context [setMode ?m ?x] =>
             let H := fresh in
             destruct (setMode_shape m x) as (? & H); rewrite H; clear H
         | |- context [set_activeItem ?o ?x] =>
             let H := fresh in
             destruct (set_activeItem_shape o x) as (? & H); rewrite H; clear H
         | |- context [checkWallDuplicates ?x] =>
             let H := fresh in
             destruct (checkWallDuplicates_shape x) as (? & H); rewrite H; clear H
         | |- context [updateTarget ?x] =>
             let H := fresh in
             destruct (updateTarget_shape x) as (? & ? & H); rewrite H; clear H
         end.

Ltac peel :=
  repeat first
    [ match goal with
      | H : debounced ?x |- debounced ?x => exact H
      | |- debounced (emitChanges _ ?x) => apply (@emitChanges_debounced x)
      | |- debounced (elapse ?dt ?x) => apply (@elapse_debounced dt x)
      | |- debounced (snd (_, _)) => cbn [snd]
      | |- debounced (if ?c then _ else _) => destruct c
      | |- debounced (?f ?v ?x) =>
          apply (@quiet_debounced (f v) x); [intros ?; split; reflexivity|]
      | |- debounced (?f ?x) =>
          apply (@quiet_debounced f x); [intros ?; split; reflexivity|]
      end ].

Lemma hover_debounced (s : Controller) : debounced s -> debounced (mousemove_hover s).
Proof.
  apply quiet_debounced. intros s0.
  unfold mousemove_hover; cbv zeta; split_cases; shapes; split; reflexivity.
Qed.

Lemma drag_debounced (o : option Item) (s : Controller) :
  debounced s -> debounced (mousemove_drag wait o s).
Proof.
  intros H. unfold mousemove_drag; cbv zeta. split_cases; shapes_quiet; peel.
Qed.

Lemma handle_debounced (e : Event) (s : Controller) :
  debounced s -> debounced (handle wait e s).
Proof.
  intros H. destruct e; cbn [handle].
  - unfold mousedown; cbv zeta. split_cases; shapes_quiet; peel.
  - unfold mousemove; cbv zeta.
    repeat match goal with
           | |- context [if ?c then _ else _] => destruct c
           end;
      repeat first [ apply drag_debounced | apply hover_debounced
                   | progress (unfold mousemove_pan; shapes_quiet; peel) ].
  - unfold mouseup; cbv zeta. split_cases; shapes_quiet; peel.
  - unfold mouseleave; cbv zeta. shapes_quiet; peel.
  - unfold escapeKey. destruct (keyCode =? 27); shapes_quiet; peel.
  - unfold reset, resetOrigin, resizeView; cbv zeta. shapes_quiet; peel.
  - shapes_quiet; peel.
  - peel.
  - peel.
  - peel.
  - peel.
Qed.


Lemma run_debounced (es : list Event) (s : Controller) :
  debounced s -> debounced (run wait es s).
Proof.
  revert s; induction es as [|e es IH]; intros s H; [exact H|].
  apply IH, handle_debounced, H.
Qed.

Lemma create_debounced (canvas : DOMRect) (fp : FloorplanModel) :
  debounced (create canvas fp).
Proof.
  unfold create. apply quiet_debounced; [|reflexivity].
  intros s. shapes_setMode. split; reflexivity.
Qed.

Lemma debounced_one_pending (s : Controller) : debounced s -> (length (timers s) <= 1)%nat.
Proof.
  unfold debounced. destruct (emitChanges_timeout s).
  - intros [ms ->]. simpl. lia.
  - intros ->. simpl. lia.
Qed.

Lemma modelChanges_emitChanges (s : Controller) :
  modelChanges (emitChanges wait s) = modelChanges s.
Proof. shapes. reflexivity. Qed.

(** Nothing is pending, or the emitter's timer has the whole quiet period
    left. *)
Lemma elapse_within_wait (gap : nat) (s : Controller) :
  (gap < wait)%nat ->
  (timers s = [] /\ emitChanges_timeout s = None)
  \/ (exists id, timers s = [{| tid := id; remaining := wait |}]
                 /\ emitChanges_timeout s = Some id) ->
  debounced (elapse gap s) /\ modelChanges (elapse gap s) = modelChanges s.
Proof.
  intros Hgap [[Ht Hh]|(id & Ht & Hh)].
  - rewrite (@elapse_idle gap s Ht). unfold debounced; fields. rewrite Hh.
    split; reflexivity.
  - rewrite (@elapse_pending gap id wait s Ht Hgap). unfold debounced; fields.
    rewrite Hh. split; [eexists|]; reflexivity.
Qed.

Lemma burst_armed (steps : list (nat * (FloorplanModel -> FloorplanModel)))
  (s : Controller) :
  (timers s = [] /\ emitChanges_timeout s = None)
  \/ (exists id, timers s = [{| tid := id; remaining := wait |}]
                 /\ emitChanges_timeout s = Some id) ->
  (forall step, In step steps -> (fst step < wait)%nat) ->
  steps <> [] ->
  (exists id, timers (burst wait steps s) = [{| tid := id; remaining := wait |}]
              /\ emitChanges_timeout (burst wait steps s) = Some id)
  /\ modelChanges (burst wait steps s) = modelChanges s.
Proof.
  revert s; induction steps as [|[gap f] steps IH]; intros s Hs Hgaps Hne.
  - now destruct Hne.
  - unfold burst; cbn [fold_left fst snd].
    destruct (@elapse_within_wait gap s (Hgaps (gap, f) (or_introl eq_refl)) Hs)
      as [Hd Hm].
    set (s1 := elapse gap s) in *.
    assert (Hd' : debounced (onFloorplan f s1))
      by (apply quiet_debounced; [intros ?; split; reflexivity|exact Hd]).
    destruct (@emitChanges_pending (onFloorplan f s1) Hd') as [Ht Hh].
    set (s2 := emitChanges wait (onFloorplan f s1)) in *.
    assert (Hm2 : modelChanges s2 = modelChanges s).
    { subst s2. rewrite modelChanges_emitChanges. exact Hm. }
    destruct steps as [|step steps].
    + cbn [fold_left]. split; [eexists; split; eassumption|exact Hm2].
    + destruct (IH s2) as [Ha Hb].
      * right. eexists; split; eassumption.
      * intros step' Hin. apply Hgaps. right; exact Hin.
      * discriminate.
      * split; [exact Ha|]. unfold burst in Hb. rewrite Hb. exact Hm2.
Qed.

(** C9. The debounced emitter keeps at most one notification pending,
    whatever the controller has been through; triggering it replaces what
    is pending by one timer for the whole quiet period and delivers
    nothing.  So a burst of mutations, each less than the quiet period
    after the one before, delivers nothing while it lasts and is followed,
    once the quiet period has passed, by one firing of the model-changed
    channel, carrying the state the burst ended in. *)
Theorem debounce_coalesces :
  (forall (canvas : DOMRect) (fp : FloorplanModel) (es : list Event),
     (length (timers (run wait es (create canvas fp))) <= 1)%nat)
  /\ (forall s : Controller,
        debounced s ->
        timers (emitChanges wait s) = [{| tid := nextTimer s; remaining := wait |}]
        /\ modelChanges (emitChanges wait s) = modelChanges s)
  /\ (forall (s : Controller) (steps : list (nat * (FloorplanModel -> FloorplanModel)))
        (quietTime : nat),
        timers s = [] -> emitChanges_timeout s = None ->
        steps <> [] ->
        (forall step, In step steps -> (fst step < wait)%nat) ->
        (wait <= quietTime)%nat ->
        let s1 := burst wait steps s in
        let s2 := elapse quietTime s1 in
        length (timers s1) = 1%nat
        /\ modelChanges s1 = modelChanges s
        /\ modelChanges s2
           = modelChanges s ++ Callback.fire (payload s1) (onModelChange s1)
        /\ timers s2 = []).
Proof.
  split; [|split].
  - intros canvas fp es.
    apply debounced_one_pending, run_debounced, create_debounced.
  - intros s H. split; [apply (@emitChanges_pending s H)|apply modelChanges_emitChanges].
  - intros s steps quietTime Ht Hh Hne Hgaps Hquiet s1 s2.
    destruct (@burst_armed steps s (or_introl (conj Ht Hh)) Hgaps Hne)
      as [(id & Ht1 & Hh1) Hm].
    fold s1 in Ht1, Hh1, Hm. subst s2.
    rewrite (@elapse_due quietTime id wait s1 Ht1 Hquiet).
    rewrite modelChanges_later, Ht1.
    repeat split; try reflexivity; try exact Hm.
    change (modelChanges (set_timers [] s1)) with (modelChanges s1). rewrite Hm.
    reflexivity.
Qed.

(** *** Further properties of the handlers *)

(** X4. Every wall list, repeated wall objects included: a wall is kept exactly
    when no different wall object connecting the same two corners stands
    before one of its occurrences.  So of a wall listed on both sides of a
    duplicate, every occurrence goes. *)
Theorem checkWallDuplicates_kept_iff :
  forall (s : Controller) (w : Wall),
    In w (getWalls (floorplan (checkWallDuplicates s)))
    <-> In w (getWalls (floorplan s))
        /\ ~ (exists i k v,
                (i < k)%nat
                /\ nth_error (getWalls (floorplan s)) i = Some v
                /\ nth_error (getWalls (floorplan s)) k = Some w
                /\ v <> w /\ sameCorners (floorplan s) v w = true).
Proof.
  intros s w. rewrite kept_iff, In_duplicates.
  split; intros [Hin Hno]; (split; [exact Hin|]);
    intros (i & k & v & Hlt & Hi & Hk & Hd); apply Hno; exists i, k, v;
    repeat split; try assumption.
  - apply isDuplicate_spec. exact Hd.
  - apply isDuplicate_spec in Hd. apply Hd.
  - apply isDuplicate_spec in Hd. apply Hd.
Qed.

(** X6. [reset] resizes the view, switches to MOVE mode with everything
    cleared and the mode listeners notified once, sets the view origin from
    the center of the floorplan and the half size of the canvas, by the
    expression of [resetOrigin] as it is written, and ends with one redraw;
    no change notification is scheduled. *)
Theorem reset_restores_view :
  forall s : Controller,
    let s' := reset s in
    mode s' = MOVE /\ selection s' = (None, None, None) /\ lastNode s' = None
    /\ originX s'
       = fst (Floorplan_getCenter (floorplan s')) * pixelsPerCm
         - width (canvasElement s) / 2
    /\ originY s'
       = snd (Floorplan_getCenter (floorplan s')) * pixelsPerCm
         - height (canvasElement s) / 2
    /\ timers s' = timers s
    /\ effects s'
       = effects s ++ [ViewHandleWindowResize]
         ++ map (fun fn => ModeListener fn MOVE) (Callback.callbacks (onModeChange s))
         ++ [ViewDraw].
Proof.
  intros s s'. subst s'. unfold reset, resetOrigin, resizeView; cbv zeta.
  destruct (setMode_shape MOVE (perform [ViewHandleWindowResize] s)) as (fp & ->).
  unfold selection; fields. rewrite <- !app_assoc. repeat split.
Qed.

(** X7. Leaving the canvas ends a drag and clears the three active entities,
    with one redraw; it is not a mode change: the mode, the last-placed
    corner of a wall chain being drawn, the draw target, the view origin
    and a pending notification stay. *)
Theorem mouseleave_keeps_mode :
  forall s : Controller,
    let s' := mouseleave s in
    mouseDown s' = false /\ selection s' = (None, None, None) /\ activeItem s' = Null
    /\ mode s' = mode s /\ lastNode s' = lastNode s
    /\ targetX s' = targetX s /\ targetY s' = targetY s
    /\ originX s' = originX s /\ originY s' = originY s
    /\ timers s' = timers s
    /\ effects s' = effects s ++ [ViewDraw].
Proof.
  intros s s'. subst s'. unfold mouseleave; cbv zeta.
  destruct (set_activeItem_shape None
              (set_activeWall None (set_activeCorner None (set_mouseDown false s))))
    as (fp & ->).
  unfold activeItem, selection; fields. repeat split.
Qed.

(** X8. Deleting the active item leaves [_activeItemIndex] as it is: after the
    press, the [activeItem] getter reads the item that moved into the slot
    of the deleted one, or [undefined] when the slot is past the end. *)
Theorem delete_item_keeps_index :
  forall (event : MouseEvent) (s : Controller) (item : Item) (index : nat),
    mode s = DELETE -> activeCorner s = None -> activeWall s = None ->
    _activeItemIndex s = Some index ->
    nth_error (getItems (floorplan s)) index = Some item ->
    let s' := mousedown wait event s in
    _activeItemIndex s' = Some index
    /\ activeItem s'
       = match nth_error (filter (fun i => negb (i =? item)) (getItems (floorplan s)))
                         index with
         | Some other => Obj other
         | None => Undefined
         end.
Proof.
  intros event s item index Hmode Hc Hw Hidx Hnth s'. subst s'.
  assert (Hitem : activeItem s = Obj item) by (unfold activeItem; now rewrite Hidx, Hnth).
  unfold mousedown; cbv zeta; fields. rewrite Hmode, Hc, Hw.
  cbn [FloorplanMode_eqb].
  change (activeItem (set_lastRawY _ _)) with (activeItem s). rewrite Hitem.
  shapes. unfold activeItem; fields. rewrite Hidx, Item_remove_getItems.
  split; reflexivity.
Qed.


(** X9. A release after the pointer moved, with no item selected in the
    model, is not a click: nothing but [mouseDown] changes, in any mode. *)
Theorem mouseup_after_move :
  forall s : Controller,
    mouseMoved s = true -> getSelectedItem (floorplan s) = None ->
    mouseup wait s = set_mouseDown false s.
Proof.
  intros s Hmoved Hsel. unfold mouseup; cbv zeta; fields.
  rewrite Hsel; fields. rewrite Hmoved. cbn [negb andb].
  rewrite Bool.andb_false_r. reflexivity.
Qed.

Lemma mousedown_move (event : MouseEvent) (s : Controller) :
  mode s = MOVE -> getSelectedItem (floorplan s) = None ->
  mousedown wait event s
  = draw (set_lastRawY (clientY event) (set_lastRawX (clientX event)
      (set_lastY (mouseY s) (set_lastX (mouseX s)
        (set_mouseMoved false (set_mouseDown true s)))))).
Proof.
  intros Hmode Hsel.
  unfold mousedown; cbv zeta; fields. rewrite Hmode, Hsel. reflexivity.
Qed.

Lemma mouseup_click (x : Controller) :
  mode x = MOVE -> mouseMoved x = false -> getSelectedItem (floorplan x) = None ->
  floorplan (mouseup wait x)
  = setSelectedItem (match activeItem x with Obj item => Some item | _ => None end)
                    true (floorplan x)
  /\ mode (mouseup wait x) = MOVE /\ mouseDown (mouseup wait x) = false
  /\ timers (mouseup wait x) = timers x
  /\ effects (mouseup wait x) = effects x ++ [ViewDraw].
Proof.
  intros Hmode Hmoved Hsel.
  unfold mouseup; cbv zeta; fields. rewrite Hsel; fields.
  rewrite Hmode, Hmoved; cbn [FloorplanMode_eqb negb andb]; fields.
  unfold activeItem; fields.
  destruct (_activeItemIndex x) as [index|]; [destruct (nth_error _ _)|];
    fields; repeat split; assumption.
Qed.

(** X10. A click in MOVE mode (press and release with no move in between, no
    item selected before) makes the active item the model's selected item,
    or clears the selection when no item is active; it schedules no
    notification and stays in MOVE mode. *)
Theorem click_selects_active_item :
  forall (event : MouseEvent) (s : Controller),
    mode s = MOVE -> getSelectedItem (floorplan s) = None ->
    let s' := mouseup wait (mousedown wait event s) in
    floorplan s'
    = setSelectedItem (match activeItem s with Obj item => Some item | _ => None end)
                      true (floorplan s)
    /\ mode s' = MOVE /\ mouseDown s' = false /\ timers s' = timers s
    /\ effects s' = effects s ++ [ViewDraw; ViewDraw].
Proof.
  intros event s Hmode Hsel s'. subst s'.
  rewrite (mousedown_move event s Hmode Hsel).
  match goal with |- context [mouseup wait ?x] =>
    destruct (@mouseup_click x Hmode eq_refl Hsel) as (Hf & Hm & Hd & Ht & He)
  end.
  rewrite Hf, Hm, Hd, Ht, He. fields. rewrite <- app_assoc.
  repeat split.
Qed.

Lemma emitChanges_arms :
  forall x : Controller,
    emitChanges_timeout (emitChanges wait x) = Some (nextTimer x)
    /\ In {| tid := nextTimer x; remaining := wait |} (timers (emitChanges wait x)).
Proof.
  intros x. unfold emitChanges, setTimeout, clearTimeout.
  destruct (emitChanges_timeout x); fields; split; try reflexivity;
    apply in_or_app; right; left; reflexivity.
Qed.

(** X11. A click in DRAW mode (release with no move since the press, no item
    selected) puts a corner at the snapped target, links it to the previous
    node when there is one, and merges it with what it touches.  The new
    corner always becomes the last node.  The controller returns to MOVE
    mode exactly when the corner merged and a previous node existed; a
    change notification is scheduled. *)
Theorem mouseup_draws_corner :
  forall s : Controller,
    mode s = DRAW -> mouseMoved s = false ->
    getSelectedItem (floorplan s) = None ->
    let r := newCorner (targetX s) (targetY s) (floorplan s) in
    let linked := match lastNode s with
                  | Some node => newWall node (fst r) (snd r)
                  | None => snd r
                  end in
    let merged := Corner_mergeWithIntersected (fst r) linked in
    let s' := mouseup wait s in
    lastNode s' = Some (fst r)
    /\ mode s' = (if fst merged && isSome (lastNode s) then MOVE else DRAW)
    /\ mouseDown s' = false
    /\ emitChanges_timeout s' = Some (nextTimer s)
    /\ In {| tid := nextTimer s; remaining := wait |} (timers s').
Proof.
  intros s Hmode Hmoved Hsel r linked merged s'. subst s'.
  unfold mouseup; cbv zeta; fields. rewrite Hsel; fields.
  rewrite Hmode, Hmoved; cbn [FloorplanMode_eqb negb andb].
  match goal with |- context [emitChanges wait ?x] =>
    destruct (emitChanges_arms x) as [Harmed Hpending];
    assert (Hnext : nextTimer x = nextTimer s)
  end.
  { destruct (lastNode s) eqn:Hlast; fields; rewrite ?Hlast;
      destruct (fst (Corner_mergeWithIntersected _ _)); cbn [andb isSome];
      shapes_quiet; reflexivity. }
  rewrite Hnext in Harmed, Hpending.
  refine (conj _ (conj _ (conj _ (conj Harmed Hpending))));
    clear Harmed Hpending Hnext; subst r linked merged;
    destruct (lastNode s) eqn:Hlast; fields; rewrite ?Hlast;
    destruct (fst (Corner_mergeWithIntersected _ _)); cbn [andb isSome];
    shapes_setMode; fields; try assumption; reflexivity.
Qed.

(** *** Panning *)

Lemma drag_idle (o : option Item) (x : Controller) :
  activeCorner x = None -> activeWall x = None -> _activeItemIndex x = None ->
  mousemove_drag wait o x = draw (set_lastY (mouseY x) (set_lastX (mouseX x) x)).
Proof.
  intros Hc Hw Hi. unfold mousemove_drag, activeItem; cbv zeta. rewrite Hi.
  destruct o; cbn [strictEq fst snd]; rewrite Hi, Hc, Hw; reflexivity.
Qed.

Lemma pan_step (event : MouseEvent) (s : Controller) :
    mouseDown s = true -> selection s = (None, None, None) ->
    let s' := mousemove wait event s in
    originX s' = originX s - (clientX event - lastRawX s)
    /\ originY s' = originY s - (clientY event - lastRawY s)
    /\ lastRawX s' = clientX event /\ lastRawY s' = clientY event
    /\ mouseDown s' = true /\ selection s' = (None, None, None)
    /\ floorplan s' = floorplan s /\ timers s' = timers s /\ mode s' = mode s.
Proof.
  intros Hdown Hsel s'. subst s'.
  unfold selection in *. injection Hsel as Hc Hw Hi.
  unfold mousemove; cbv zeta; fields. rewrite Hdown.
  destruct (mode s) eqn:Hmode; cbn [FloorplanMode_eqb orb andb negb];
    repeat (shapes_quiet; fields; unfold activeItem;
            rewrite ?Hdown, ?Hc, ?Hw, ?Hi, ?Hmode;
            cbn [FloorplanMode_eqb orb andb negb isSome truthy]);
    unfold mousemove_pan; fields;
    repeat (rewrite ?Hdown, ?Hc, ?Hw, ?Hi, ?Hmode;
            cbn [FloorplanMode_eqb orb andb negb isSome truthy]; fields);
    rewrite ?drag_idle by assumption; fields;
    rewrite ?Hc, ?Hw, ?Hi; repeat split; assumption.
Qed.

(** X12. A move with the button held and nothing active pans the view: the
    origin moves against the pointer by the raw distance since the last
    event, in every mode; the floorplan is untouched and no notification is
    scheduled. *)
Theorem mousemove_pans :
  forall (event : MouseEvent) (s : Controller),
    mouseDown s = true -> selection s = (None, None, None) ->
    let s' := mousemove wait event s in
    originX s' = originX s - (clientX event - lastRawX s)
    /\ originY s' = originY s - (clientY event - lastRawY s)
    /\ lastRawX s' = clientX event /\ lastRawY s' = clientY event
    /\ mouseDown s' = true /\ selection s' = (None, None, None)
    /\ floorplan s' = floorplan s /\ timers s' = timers s /\ mode s' = mode s.
Proof. intros event s. apply pan_step. Qed.

Lemma run_cons (e : Event) (es : list Event) (s : Controller) :
  run wait (e :: es) s = run wait es (handle wait e s).
Proof. reflexivity. Qed.

Lemma last_cons_default (A : Type) (l : list A) (a d : A) :
  last (a :: l) d = last l a.
Proof.
  revert a d. induction l as [|b l IH]; intros a d; [reflexivity|].
  change (last (a :: b :: l) d) with (last (b :: l) d). now rewrite !IH.
Qed.

Lemma pan_run (events : list MouseEvent) (s : Controller) :
    mouseDown s = true -> selection s = (None, None, None) ->
    let s' := run wait (map Mousemove events) s in
    originX s' = panned (originX s) (lastRawX s) (map clientX events)
    /\ originY s' = panned (originY s) (lastRawY s) (map clientY events)
    /\ lastRawX s' = last (map clientX events) (lastRawX s)
    /\ lastRawY s' = last (map clientY events) (lastRawY s)
    /\ mouseDown s' = true /\ selection s' = (None, None, None)
    /\ floorplan s' = floorplan s /\ timers s' = timers s /\ mode s' = mode s.
Proof.
  revert s. induction events as [|event events IH]; intros s Hdown Hsel.
  - cbn. repeat split; assumption.
  - destruct (@pan_step event s Hdown Hsel)
      as (Hx & Hy & Hrx & Hry & Hdown' & Hsel' & Hfp & Ht & Hm).
    specialize (IH (mousemove wait event s) Hdown' Hsel').
    cbn [map panned]. rewrite !last_cons_default, run_cons. cbn [handle].
    cbv zeta in IH |- *.
    set (x := mousemove wait event s) in *. clearbody x.
    set (y := run wait (map Mousemove events) x) in *. clearbody y.
    destruct IH as (IHx & IHy & IHrx & IHry & IHd & IHs & IHfp & IHt & IHm).
    rewrite IHx, IHy, IHrx, IHry, IHfp, IHt, IHm, Hx, Hy, Hrx, Hry, Hfp, Ht, Hm.
    repeat split; assumption.
Qed.

(** X13. While the button is held with nothing active, a run of moves only
    pans, in every mode: the origin is what the update of the panning block,
    [origin -= client - lastRaw], gives when it is applied to the raw
    pointer positions in order, so it depends on the raw positions alone;
    the last raw position is that of the last move; the button stays held
    and nothing becomes active; the floorplan, the timers and the mode are
    left as they were. *)
Theorem pan_accumulates :
  forall (events : list MouseEvent) (s : Controller),
    mouseDown s = true -> selection s = (None, None, None) ->
    let s' := run wait (map Mousemove events) s in
    originX s' = panned (originX s) (lastRawX s) (map clientX events)
    /\ originY s' = panned (originY s) (lastRawY s) (map clientY events)
    /\ lastRawX s' = last (map clientX events) (lastRawX s)
    /\ lastRawY s' = last (map clientY events) (lastRawY s)
    /\ mouseDown s' = true /\ selection s' = (None, None, None)
    /\ floorplan s' = floorplan s /\ timers s' = timers s /\ mode s' = mode s.
Proof. intros events s. apply pan_run. Qed.

(** *** Notifications are never delivered by a handler *)

Lemma modelChanges_frame (f : Controller -> Controller) (x : Controller) :
  (forall s, effects (f s) = effects s) -> modelChanges (f x) = modelChanges x.
Proof. intros H. unfold modelChanges. rewrite H. reflexivity. Qed.

Lemma modelChanges_resize (x : Controller) :
  modelChanges (perform [ViewHandleWindowResize] x) = modelChanges x.
Proof.
  unfold modelChanges, perform; cbn [effects set_effects].
  rewrite flat_map_app. apply app_nil_r.
Qed.

Ltac hush :=
  repeat first
    [ reflexivity
    | match goal with
      | |- modelChanges (snd (_, _)) = _ => cbn [snd]
      | |- modelChanges (emitChanges _ ?x) = _ => rewrite (modelChanges_emitChanges x)
      | |- modelChanges (draw ?x) = _ => rewrite (modelChanges_draw x)
      | |- modelChanges (setMode ?m ?x) = _ => rewrite (modelChanges_setMode m x)
      | |- modelChanges (checkWallDuplicates ?x) = _ =>
          destruct (checkWallDuplicates_shape x) as (? & ->)
      | |- modelChanges (set_activeItem ?o ?x) = _ =>
          destruct (set_activeItem_shape o x) as (? & ->)
      | |- modelChanges (updateTarget ?x) = _ =>
          destruct (updateTarget_shape x) as (? & ? & ->)
      | |- modelChanges (perform [ViewHandleWindowResize] ?x) = _ =>
          rewrite (modelChanges_resize x)
      | |- modelChanges (if ?c then _ else _) = _ => destruct c
      | |- modelChanges (?f ?v ?x) = _ =>
          rewrite (@modelChanges_frame (f v) x) by (intros ?; reflexivity)
      | |- modelChanges (?f ?x) = _ =>
          rewrite (@modelChanges_frame f x) by (intros ?; reflexivity)
      end ].

Lemma modelChanges_hover (x : Controller) :
  modelChanges (mousemove_hover x) = modelChanges x.
Proof. unfold mousemove_hover; cbv zeta. split_cases; hush. Qed.

Lemma modelChanges_drag (o : option Item) (x : Controller) :
  modelChanges (mousemove_drag wait o x) = modelChanges x.
Proof. unfold mousemove_drag; cbv zeta. split_cases; hush. Qed.

Lemma modelChanges_mousemove (event : MouseEvent) (s : Controller) :
  modelChanges (mousemove wait event s) = modelChanges s.
Proof.
  unfold mousemove; cbv zeta.
  repeat first
    [ rewrite modelChanges_drag | rewrite modelChanges_hover
    | progress (unfold mousemove_pan; hush) ].
Qed.

(** X15. No handler delivers a model-changed notification itself: pointer and
    key events, a loaded room, a mode switch and the registration of
    listeners leave the delivered notifications as they were, so a listener
    is only ever called from the timer, when time passes. *)
Theorem handlers_defer_notifications :
  forall (e : Event) (s : Controller),
    (forall dt, e <> Elapse dt) ->
    modelChanges (handle wait e s) = modelChanges s.
Proof.
  intros e s Hevent. destruct e; cbn [handle].
  - unfold mousedown; cbv zeta. split_cases; hush.
  - apply modelChanges_mousemove.
  - unfold mouseup; cbv zeta. split_cases; hush.
  - unfold mouseleave; cbv zeta. hush.
  - unfold escapeKey. destruct (keyCode =? 27); hush.
  - unfold reset, resetOrigin, resizeView; cbv zeta. hush.
  - hush.
  - hush.
  - hush.
  - destruct (Hevent dt eq_refl).
  - hush.
Qed.

(** *** The mode *)

Lemma field_frame (A : Type) (p : Controller -> A) (f : Controller -> Controller)
  (x : Controller) :
  (forall s, p (f s) = p s) -> p (f x) = p x.
Proof. intros H. apply H. Qed.

Lemma mode_drag (o : option Item) (x : Controller) :
  mode (mousemove_drag wait o x) = mode x.
Proof. unfold mousemove_drag; cbv zeta. split_cases; shapes; reflexivity. Qed.

Lemma mode_mousemove (event : MouseEvent) (s : Controller) :
  mode (mousemove wait event s) = mode s.
Proof.
  unfold mousemove; cbv zeta.
  repeat first
    [ reflexivity
    | match goal with
      | |- mode (if ?c then _ else _) = _ => destruct c
      | |- mode (mousemove_drag _ ?o ?x) = _ => rewrite (mode_drag o x)
      | |- mode (mousemove_hover ?x) = _ => rewrite (proj2 (hover_frame x))
      | |- mode (updateTarget ?x) = _ =>
          destruct (updateTarget_shape x) as (? & ? & ->)
      | |- mode (?f ?v ?x) = _ =>
          rewrite (@field_frame _ mode (f v) x) by (intros ?; reflexivity)
      | |- mode (?f ?x) = _ =>
          rewrite (@field_frame _ mode f x) by (intros ?; reflexivity)
      end ].
Qed.

Lemma mode_elapse (dt : nat) (s : Controller) : mode (elapse dt s) = mode s.
Proof.
  unfold elapse; cbv zeta.
  generalize (filter (fun t => remaining t <=? dt) (timers s)).
  match goal with |- forall l, mode (fold_left _ l ?x) = _ =>
    change (mode s) with (mode x); generalize x end.
  intros s0 l; revert s0; induction l as [|t l IH]; intros s0; simpl; [reflexivity|].
  rewrite IH. reflexivity.
Qed.

Lemma mode_create (canvas : DOMRect) (fp : FloorplanModel) :
  mode (create canvas fp) = MOVE.
Proof. unfold create. shapes_setMode. reflexivity. Qed.

Lemma handle_mode (e : Event) (s : Controller) :
    (forall newMode, e <> SetMode newMode) ->
    mode (handle wait e s) = mode s \/ mode (handle wait e s) = MOVE.
Proof.
  intros Hevent. destruct e; cbn [handle].
  - unfold mousedown; cbv zeta.
    split_cases; shapes_setMode; first [left; reflexivity | right; reflexivity].
  - left. apply mode_mousemove.
  - unfold mouseup; cbv zeta.
    split_cases; shapes_setMode; first [left; reflexivity | right; reflexivity].
  - left. unfold mouseleave; cbv zeta. shapes. reflexivity.
  - unfold escapeKey. destruct (keyCode =? 27); [right|left; reflexivity].
    shapes_setMode. reflexivity.
  - right. unfold reset, resetOrigin, resizeView; cbv zeta. shapes_setMode. reflexivity.
  - destruct (Hevent newMode eq_refl).
  - left. reflexivity.
  - left. reflexivity.
  - left. apply mode_elapse.
  - left. reflexivity.
Qed.

(** X16. Apart from a call of [setMode], nothing the controller handles enters
    DRAW or DELETE mode: an event leaves the mode as it is or returns the
    controller to MOVE mode. *)
Theorem handlers_only_return_to_MOVE :
  forall (e : Event) (s : Controller),
    (forall newMode, e <> SetMode newMode) ->
    mode (handle wait e s) = mode s \/ mode (handle wait e s) = MOVE.
Proof. intros e s. apply handle_mode. Qed.

(** X17. A controller whose [setMode] is never called from outside stays in
    MOVE mode. *)
Theorem mode_stays_MOVE_without_setMode :
  forall (es : list Event) (canvas : DOMRect) (fp : FloorplanModel),
    (forall newMode, ~ In (SetMode newMode) es) ->
    mode (run wait es (create canvas fp)) = MOVE.
Proof.
  intros es canvas fp. induction es as [|e es IH] using rev_ind; intros Hes.
  - apply mode_create.
  - rewrite run_snoc.
    assert (IH' : mode (run wait es (create canvas fp)) = MOVE).
    { apply IH. intros m Hin. apply (Hes m), in_or_app. left; exact Hin. }
    destruct (@handle_mode e (run wait es (create canvas fp)))
      as [H|H].
    + intros m ->. apply (Hes m), in_or_app. right; left; reflexivity.
    + rewrite H. exact IH'.
    + exact H.
Qed.

(** *** Drawing *)

Lemma mousemove_drawing (event : MouseEvent) (s : Controller) :
  mode s = DRAW -> selection (mousemove wait event s) = selection s.
Proof.
  intros Hmode. unfold mousemove; cbv zeta; fields. rewrite Hmode.
  cbn [FloorplanMode_eqb orb andb negb].
  repeat (shapes_quiet; fields; rewrite ?Hmode;
          cbn [FloorplanMode_eqb orb andb negb]).
  match goal with |- context [if ?c then _ else _] => plain c; destruct c end;
    unfold mousemove_pan; fields; rewrite ?Hmode;
    cbn [FloorplanMode_eqb orb andb negb]; reflexivity.
Qed.

Lemma handle_drawing (e : Event) (s : Controller) :
  mode (handle wait e s) = DRAW ->
  (mode s = DRAW /\ selection (handle wait e s) = selection s)
  \/ selection (handle wait e s) = (None, None, None).
Proof.
  destruct e; cbn [handle].
  - unfold mousedown; cbv zeta.
    split_cases; shapes_setMode; fields; intros H;
      first [right; reflexivity | left; split; [exact H|reflexivity]].
  - rewrite mode_mousemove. intros H. left. split; [exact H|].
    apply mousemove_drawing, H.
  - unfold mouseup; cbv zeta.
    split_cases; shapes_setMode; fields; intros H;
      first [right; reflexivity | left; split; [exact H|reflexivity]].
  - intros _. right. unfold mouseleave; cbv zeta. shapes. reflexivity.
  - unfold escapeKey. destruct (keyCode =? 27).
    + intros _. right. shapes_setMode. reflexivity.
    + intros H. left. split; [exact H|reflexivity].
  - intros _. right. unfold reset, resetOrigin, resizeView; cbv zeta.
    shapes_setMode. reflexivity.
  - intros _. right. shapes_setMode. reflexivity.
  - intros H. left. split; [exact H|reflexivity].
  - intros H. left. split; [exact H|reflexivity].
  - rewrite mode_elapse. intros H. left. split; [exact H|apply selection_elapse].
  - intros H. left. split; [exact H|reflexivity].
Qed.

(** X18. While the controller is in DRAW mode nothing is active: after the
    constructor and any history of events, a controller in DRAW mode has no
    active corner, no active wall and no active item. *)
Theorem drawing_nothing_active :
  forall (es : list Event) (canvas : DOMRect) (fp : FloorplanModel),
    mode (run wait es (create canvas fp)) = DRAW ->
    selection (run wait es (create canvas fp)) = (None, None, None)
    /\ activeItem (run wait es (create canvas fp)) = Null.
Proof.
  intros es canvas fp Hmode.
  assert (H : selection (run wait es (create canvas fp)) = (None, None, None)).
  { revert Hmode. induction es as [|e es IH] using rev_ind.
    - cbn [run fold_left]. rewrite mode_create. discriminate.
    - rewrite run_snoc. intros Hmode.
      destruct (@handle_drawing e (run wait es (create canvas fp)) Hmode)
        as [[Hm Hs]|Hs]; [|exact Hs].
      rewrite Hs. apply IH, Hm. }
  split; [exact H|].
  unfold selection in H. unfold activeItem.
  injection H as _ _ ->. reflexivity.
Qed.

Lemma mousedown_idle (event : MouseEvent) (s : Controller) :
  selection s = (None, None, None) ->
  mouseDown (mousedown wait event s) = true
  /\ selection (mousedown wait event s) = (None, None, None)
  /\ lastRawX (mousedown wait event s) = clientX event
  /\ lastRawY (mousedown wait event s) = clientY event
  /\ originX (mousedown wait event s) = originX s
  /\ originY (mousedown wait event s) = originY s
  /\ timers (mousedown wait event s) = timers s.
Proof.
  intros Hsel. unfold selection in Hsel. injection Hsel as Hc Hw Hi.
  unfold mousedown, activeItem; cbv zeta; fields. rewrite Hc, Hw, Hi. cbv iota.
  split_cases; shapes_setMode; unfold selection; fields;
    rewrite ?Hc, ?Hw, ?Hi; repeat split.
Qed.

(** X14. Pressing the button over empty space and moving the pointer pans the
    view from the position of the press, in every mode: the origin is what
    the update of the panning block gives when it starts from the origin
    before the press, with the press as the last raw position, and is
    applied to the raw positions of the moves in order.  The button is held
    and nothing is active afterwards, and no timer is armed: a pan changes
    the origin that a change notification carries, and schedules none. *)
Theorem press_then_pan :
  forall (press : MouseEvent) (moves : list MouseEvent) (s : Controller),
    selection s = (None, None, None) ->
    let s' := run wait (Mousedown press :: map Mousemove moves) s in
    originX s' = panned (originX s) (clientX press) (map clientX moves)
    /\ originY s' = panned (originY s) (clientY press) (map clientY moves)
    /\ lastRawX s' = last (map clientX moves) (clientX press)
    /\ lastRawY s' = last (map clientY moves) (clientY press)
    /\ mouseDown s' = true /\ selection s' = (None, None, None)
    /\ timers s' = timers s.
Proof.
  intros press moves s Hsel. rewrite run_cons. cbn [handle].
  destruct (@mousedown_idle press s Hsel)
    as (Hdown & Hsel' & Hrx & Hry & Hx & Hy & Ht).
  pose proof (@pan_run moves (mousedown wait press s) Hdown Hsel') as H.
  cbv zeta in H |- *.
  set (x := mousedown wait press s) in *. clearbody x.
  set (y := run wait (map Mousemove moves) x) in *. clearbody y.
  destruct H as (Hx' & Hy' & Hrx' & Hry' & Hd' & Hs' & _ & Ht' & _).
  rewrite Hx', Hy', Hrx', Hry', Ht', Hrx, Hry, Hx, Hy, Ht.
  repeat split; assumption.
Qed.

End Facts.

(** ** The reference model keeps the collaborators' contracts *)

#[export] Instance Plan_hover : HoverLaws Plan_API.
Proof.
  split.
  - intros fp x y item H. exact (proj1 (find_some _ _ H)).
  - reflexivity.
  - reflexivity.
  - reflexivity.
  - reflexivity.
Qed.

#[export] Instance Plan_selection : SelectionLaws Plan_API.
Proof. split; reflexivity. Qed.

#[export] Instance Plan_removal : RemovalLaws Plan_API.
Proof. split; reflexivity. Qed.


(** ** The properties at work on the sample *)

Lemma updateTarget_snaps_witness :
  targetX (updateTarget Demo.drawing) = Corner_x (floorplan Demo.drawing) 30%nat
  /\ targetY (updateTarget Demo.drawing) = mouseY Demo.drawing.
Proof.
  assert (Hm : mode Demo.drawing = DRAW) by (vm_compute; reflexivity).
  assert (Hn : lastNode Demo.drawing = Some 30%nat) by (vm_compute; reflexivity).
  destruct (@updateTarget_snaps _ _ Plan_API Demo.drawing) as [H _].
  destruct (H 30%nat Hm Hn) as (Hx & _ & _ & Hy).
  split.
  - apply Hx. vm_compute. reflexivity.
  - apply Hy. intros Hlt. vm_compute in Hlt. discriminate Hlt.
Defined.

Lemma convert_round_trip_witness :
  mouseX (mousemove Demo.wait (Demo.at_ 120 80) Demo.start) == 120
  /\ mouseY (mousemove Demo.wait (Demo.at_ 120 80) Demo.start) == 80.
Proof.
  apply (@convert_round_trip _ _ Plan_API Demo.wait Demo.start (Demo.at_ 120 80) 120 80).
  - vm_compute. reflexivity.
  - vm_compute. reflexivity.
Defined.

Lemma setMode_clears_witness :
  getSelectedItem (floorplan (setMode DRAW Demo.deleting)) = None
  /\ mode (setMode DRAW Demo.deleting) = DRAW.
Proof.
  destruct (@setMode_clears _ _ Plan_API Plan_selection DRAW Demo.deleting)
    as (_ & _ & _ & _ & Hsel & Hmode & _).
  exact (conj Hsel Hmode).
Defined.

Lemma mousedown_delete_witness :
  let s' := mousedown Demo.wait (Demo.at_ 400 0) Demo.deleting in
  getCorners (floorplan s') = [1; 3]%nat
  /\ getWalls (floorplan s') = []
  /\ scheduled Demo.wait Demo.deleting s'
  /\ mode s' = DELETE.
Proof.
  assert (Hm : mode Demo.deleting = DELETE) by (vm_compute; reflexivity).
  assert (Hc : activeCorner Demo.deleting = Some 2%nat) by (vm_compute; reflexivity).
  destruct (@mousedown_delete _ _ Plan_API Demo.wait Plan_selection Plan_removal
              (Demo.at_ 400 0) Demo.deleting Hm) as [H _].
  destruct (H 2%nat Hc) as (_ & Hcorners & Hwalls & Hs & Hmode).
  cbv zeta. rewrite Hcorners, Hwalls.
  split; [vm_compute; reflexivity|].
  split; [vm_compute; reflexivity|].
  split; assumption.
Defined.

Lemma mousemove_hit_precedence_witness :
  let s' := mousemove Demo.wait (Demo.at_ 400 0) Demo.start in
  activeItem s' = Null /\ activeCorner s' = Some 2%nat /\ activeWall s' = None.
Proof.
  assert (Hm : mode Demo.start <> DRAW) by (vm_compute; discriminate).
  assert (Hd : mouseDown Demo.start = false) by (vm_compute; reflexivity).
  destruct (@mousemove_hit_precedence _ _ Plan_API Demo.wait Plan_hover
              (Demo.at_ 400 0) Demo.start Hm Hd) as (_ & H & _).
  apply (H 2%nat); vm_compute; reflexivity.
Defined.

Lemma active_entities_exclusive_witness :
  exclusive (handle Demo.wait (Mousedown (Demo.at_ 400 0)) Demo.deleting).
Proof.
  assert (Hx : exclusiveFields Demo.deleting) by (vm_compute; exact I).
  destruct (@active_entities_exclusive _ _ Plan_API Demo.wait) as (_ & H & _).
  exact (proj2 (H (Mousedown (Demo.at_ 400 0)) Demo.deleting Hx)).
Defined.


Lemma debounce_coalesces_witness :
  let s := handle Demo.wait (ModelListen true 7%nat) Demo.start in
  let s1 := burst Demo.wait [(0, fun fp => fp); (30, fun fp => fp); (99, fun fp => fp)]%nat s in
  let s2 := elapse 100 s1 in
  length (timers s1) = 1%nat
  /\ modelChanges s1 = modelChanges s
  /\ modelChanges s2 = modelChanges s ++ Callback.fire (payload s1) (onModelChange s1)
  /\ timers s2 = [].
Proof.
  destruct (@debounce_coalesces _ _ Plan_API Demo.wait) as (_ & _ & H).
  apply H.
  - vm_compute; reflexivity.
  - vm_compute; reflexivity.
  - discriminate.
  - intros step [<-|[<-|[<-|[]]]]; apply Nat.ltb_lt; vm_compute; reflexivity.
  - apply Nat.leb_le. vm_compute. reflexivity.
Defined.

(** C6. Released in DRAW mode on a spot where the new corner merges with
    an existing one, with a corner placed before, the controller switches
    to MOVE mode, and at the end of the handler the last-placed corner is
    the new corner again, not null: the unconditional [this.lastNode =
    corner] runs after [setMode]. *)
Theorem mouseup_merge_keeps_lastNode :
  let s := Demo.beforeRelease in
  let s' := mouseup Demo.wait s in
  mode s = DRAW /\ lastNode s = Some 30%nat /\ mouseMoved s = false
  /\ mode s' = MOVE /\ lastNode s' = Some 31%nat /\ ~ cleared s'.
Proof.
  cbv zeta.
  split; [vm_compute; reflexivity|].
  split; [vm_compute; reflexivity|].
  split; [vm_compute; reflexivity|].
  split; [vm_compute; reflexivity|].
  split; [vm_compute; reflexivity|].
  intros (_ & _ & _ & _ & H). vm_compute in H. discriminate H.
Qed.

(** *** Samples of the further properties *)

Lemma checkWallDuplicates_kept_iff_witness :
  ~ In 12%nat (getWalls (floorplan (checkWallDuplicates Demo.start))).
Proof.
  intros Hin.
  apply (@checkWallDuplicates_kept_iff _ _ Plan_API Plan_removal Demo.start 12%nat) in Hin.
  destruct Hin as [_ Hfirst]. apply Hfirst.
  exists 0%nat, 2%nat, 10%nat.
  split; [apply Nat.ltb_lt; vm_compute; reflexivity|].
  split; [vm_compute; reflexivity|].
  split; [vm_compute; reflexivity|].
  split; [discriminate|vm_compute; reflexivity].
Defined.

Lemma delete_item_keeps_index_witness :
  let s := run Demo.wait [SetMode DELETE; Mousemove (Demo.at_ 200 500)] Demo.start in
  let s' := mousedown Demo.wait (Demo.at_ 200 500) s in
  _activeItemIndex s' = Some 0%nat /\ activeItem s' = Undefined.
Proof.
  intros s s'.
  assert (Hm : mode s = DELETE) by (vm_compute; reflexivity).
  assert (Hc : activeCorner s = None) by (vm_compute; reflexivity).
  assert (Hw : activeWall s = None) by (vm_compute; reflexivity).
  assert (Hi : _activeItemIndex s = Some 0%nat) by (vm_compute; reflexivity).
  assert (Hn : nth_error (getItems (floorplan s)) 0 = Some 20%nat)
    by (vm_compute; reflexivity).
  destruct (@delete_item_keeps_index _ _ Plan_API Demo.wait Plan_removal
              (Demo.at_ 200 500) s 20%nat 0%nat Hm Hc Hw Hi Hn) as [Hindex Hitem].
  split; [exact Hindex|].
  subst s'. rewrite Hitem. vm_compute; reflexivity.
Defined.

Lemma mouseup_after_move_witness :
  let s := run Demo.wait [Mousedown (Demo.at_ 100 100); Mousemove (Demo.at_ 120 100)]
               Demo.start in
  mouseup Demo.wait s = set_mouseDown false s.
Proof.
  intros s.
  apply (@mouseup_after_move _ _ Plan_API Demo.wait s); vm_compute; reflexivity.
Defined.

Lemma click_selects_active_item_witness :
  let s := run Demo.wait [Mousemove (Demo.at_ 200 500)] Demo.start in
  let s' := mouseup Demo.wait (mousedown Demo.wait (Demo.at_ 200 500) s) in
  getSelectedItem (floorplan s') = Some 20%nat /\ mode s' = MOVE.
Proof.
  intros s s'.
  assert (Hm : mode s = MOVE) by (vm_compute; reflexivity).
  assert (Hs : getSelectedItem (floorplan s) = None) by (vm_compute; reflexivity).
  destruct (@click_selects_active_item _ _ Plan_API Demo.wait (Demo.at_ 200 500) s Hm Hs)
    as (Hfp & Hmode & _).
  split; [|exact Hmode].
  subst s'. rewrite Hfp. vm_compute; reflexivity.
Defined.

Lemma mouseup_draws_corner_witness :
  let s' := mouseup Demo.wait Demo.beforeRelease in
  lastNode s' = Some 31%nat /\ mode s' = MOVE.
Proof.
  assert (Hm : mode Demo.beforeRelease = DRAW) by (vm_compute; reflexivity).
  assert (Hv : mouseMoved Demo.beforeRelease = false) by (vm_compute; reflexivity).
  assert (Hs : getSelectedItem (floorplan Demo.beforeRelease) = None)
    by (vm_compute; reflexivity).
  destruct (@mouseup_draws_corner _ _ Plan_API Demo.wait Demo.beforeRelease Hm Hv Hs)
    as (Hlast & Hmode & _).
  cbv zeta. rewrite Hlast, Hmode. split; vm_compute; reflexivity.
Defined.

Lemma mousemove_pans_witness :
  let s := run Demo.wait [Mousedown (Demo.at_ 100 100)] Demo.start in
  let s' := mousemove Demo.wait (Demo.at_ 130 100) s in
  originX s' = originX s - (clientX (Demo.at_ 130 100) - lastRawX s)
  /\ floorplan s' = floorplan s.
Proof.
  intros s s'.
  assert (Hd : mouseDown s = true) by (vm_compute; reflexivity).
  assert (Hs : selection s = (None, None, None)) by (vm_compute; reflexivity).
  destruct (@mousemove_pans _ _ Plan_API Demo.wait (Demo.at_ 130 100) s Hd Hs)
    as (Hx & _ & _ & _ & _ & _ & Hfp & _).
  exact (conj Hx Hfp).
Defined.

Lemma pan_accumulates_witness :
  let s := run Demo.wait [Mousedown (Demo.at_ 100 100)] Demo.start in
  let s' := run Demo.wait (map Mousemove [Demo.at_ 130 100; Demo.at_ 90 50]) s in
  originX s' = panned (originX s) (lastRawX s)
                      [clientX (Demo.at_ 130 100); clientX (Demo.at_ 90 50)]
  /\ lastRawX s' = clientX (Demo.at_ 90 50)
  /\ floorplan s' = floorplan s.
Proof.
  intros s s'.
  assert (Hd : mouseDown s = true) by (vm_compute; reflexivity).
  assert (Hs : selection s = (None, None, None)) by (vm_compute; reflexivity).
  destruct (@pan_accumulates _ _ Plan_API Demo.wait [Demo.at_ 130 100; Demo.at_ 90 50]
              s Hd Hs) as (Hx & _ & Hrx & _ & _ & _ & Hfp & _).
  exact (conj Hx (conj Hrx Hfp)).
Defined.

Lemma handlers_defer_notifications_witness :
  modelChanges (handle Demo.wait (Mousedown (Demo.at_ 400 0)) Demo.deleting)
  = modelChanges Demo.deleting.
Proof.
  apply (@handlers_defer_notifications _ _ Plan_API Demo.wait
           (Mousedown (Demo.at_ 400 0)) Demo.deleting).
  intros dt; discriminate.
Defined.

Lemma handlers_only_return_to_MOVE_witness :
  mode (handle Demo.wait Mouseup Demo.beforeRelease) = mode Demo.beforeRelease
  \/ mode (handle Demo.wait Mouseup Demo.beforeRelease) = MOVE.
Proof.
  apply (@handlers_only_return_to_MOVE _ _ Plan_API Demo.wait Mouseup Demo.beforeRelease).
  intros newMode; discriminate.
Defined.

Lemma mode_stays_MOVE_without_setMode_witness :
  mode (run Demo.wait [Mousemove (Demo.at_ 400 0); Mousedown (Demo.at_ 400 0); Mouseup;
                       Keyup 27]
            (create Demo.canvas Demo.plan)) = MOVE.
Proof.
  apply (@mode_stays_MOVE_without_setMode _ _ Plan_API Demo.wait).
  intros newMode [H|[H|[H|[H|[]]]]]; discriminate H.
Defined.

Lemma drawing_nothing_active_witness :
  let s := run Demo.wait [SetMode DRAW; Mousemove (Demo.at_ 400 0)]
               (create Demo.canvas Demo.plan) in
  selection s = (None, None, None) /\ activeItem s = Null.
Proof.
  apply (@drawing_nothing_active _ _ Plan_API Demo.wait
           [SetMode DRAW; Mousemove (Demo.at_ 400 0)] Demo.canvas Demo.plan).
  vm_compute; reflexivity.
Defined.

Lemma press_then_pan_witness :
  let s' := run Demo.wait
                (Mousedown (Demo.at_ 100 100) :: map Mousemove [Demo.at_ 130 100])
                Demo.start in
  originX s' = panned (originX Demo.start) (clientX (Demo.at_ 100 100))
                      [clientX (Demo.at_ 130 100)]
  /\ lastRawX s' = clientX (Demo.at_ 130 100)
  /\ timers s' = timers Demo.start.
Proof.
  assert (Hs : selection Demo.start = (None, None, None)) by (vm_compute; reflexivity).
  destruct (@press_then_pan _ _ Plan_API Demo.wait (Demo.at_ 100 100) [Demo.at_ 130 100]
              Demo.start Hs) as (Hx & _ & Hrx & _ & _ & _ & Ht).
  exact (conj Hx (conj Hrx Ht)).
Defined.

